(** * dineniso5167.core: orifice flow-rate computation after DIN EN ISO 5167

    Shallow embedding of [src/dineniso5167/core.py] (scalar calls).

    Numbers.  A Python or NumPy float is modelled by [fl]: a real number
    (decimal literals of the source are read as the exact reals they denote)
    or NaN.  Infinities are folded into NaN; rounding is not modelled.

    Two arithmetics appear in the source:
    - NumPy [float64] arithmetic (every value derived from [np.sqrt],
      [np.exp], [np.nanmean], ...) never raises: a division by zero or a
      fractional power of a negative number gives NaN ([fdiv], [npow]);
    - plain Python [float] arithmetic raises [ZeroDivisionError] on a
      division by zero ([pdiv]) and leaves the reals (a complex number) on a
      fractional power of a negative number ([ppow]); both are results of
      the error monad [res].

    Verbose printing ([verbose=False]) and the text of the warnings are not
    modelled; the warnings of [compute_beta] are returned as tags. *)

From Stdlib Require Import Reals Lra Psatz String List Bool.
Import ListNotations.
Open Scope R_scope.

(** ** Floats *)

Inductive fl : Type :=
| Num (x : R)
| NaN.

Definition lift1 (f : R -> R) (x : fl) : fl :=
  match x with Num a => Num (f a) | NaN => NaN end.

Definition lift2 (f : R -> R -> R) (x y : fl) : fl :=
  match x, y with Num a, Num b => Num (f a b) | _, _ => NaN end.

Definition fadd := lift2 Rplus.
Definition fsub := lift2 Rminus.
Definition fmul := lift2 Rmult.
Definition fopp := lift1 Ropp.

(** NumPy division: a zero divisor gives a non-finite value. *)
Definition fdiv (x y : fl) : fl :=
  match x, y with
  | Num a, Num b => if Req_dec_T b 0 then NaN else Num (a / b)
  | _, _ => NaN
  end.

(** [np.sqrt] *)
Definition fsqrt (x : fl) : fl :=
  match x with
  | Num a => if Rlt_dec a 0 then NaN else Num (sqrt a)
  | NaN => NaN
  end.

(** [np.exp], [np.abs], [np.sign] (and the builtin [abs]). *)
Definition fexp := lift1 exp.
Definition fabs := lift1 Rabs.
Definition fsign (x : fl) : fl :=
  match x with
  | Num a =>
      if Rlt_dec a 0 then Num (-1) else if Rlt_dec 0 a then Num 1 else Num 0
  | NaN => NaN
  end.

(** [x ** n] with a nonnegative integer literal exponent. *)
Definition fpown (x : fl) (n : nat) : fl := lift1 (fun a => a ^ n) x.

(** A real exponent is integral when it equals [up y - 1]. *)
Definition is_integral (y : R) : bool :=
  if Req_dec_T (IZR (up y) - 1) y then true else false.

(** The real value of [a ** y] for a positive, zero or (with an integral
    exponent) negative base. *)
Definition real_pow (a y : R) : R :=
  if Rlt_dec 0 a then Rpower a y
  else if Req_dec_T a 0 then (if Req_dec_T y 0 then 1 else 0)
  else powerRZ a (up y - 1).

(** NumPy [float64 ** float]. *)
Definition npow (x y : fl) : fl :=
  match x, y with
  | Num a, Num b =>
      if Rlt_dec 0 a then Num (Rpower a b)
      else if Req_dec_T a 0 then
        (if Rlt_dec b 0 then NaN else Num (real_pow a b))
      else if is_integral b then Num (real_pow a b) else NaN
  | Num a, NaN => if Req_dec_T a 1 then Num 1 else NaN
  | NaN, Num b => if Req_dec_T b 0 then Num 1 else NaN
  | NaN, NaN => NaN
  end.

(** Comparisons: every comparison with NaN is false. *)
Definition cmp (r : R -> R -> bool) (x y : fl) : bool :=
  match x, y with Num a, Num b => r a b | _, _ => false end.

Definition Rltb (a b : R) : bool := if Rlt_dec a b then true else false.
Definition Rleb (a b : R) : bool := if Rle_dec a b then true else false.

Definition flt := cmp Rltb.
Definition fle := cmp Rleb.
Definition fgt (x y : fl) := cmp Rltb y x.
Definition fge (x y : fl) := cmp Rleb y x.

(** ** Exceptions and the error monad *)

Inductive exc : Type :=
| ValueError
| NotImplementedError
| ZeroDivisionError
| NameError            (* UnboundLocalError, a NameError *)
| ComplexResult.       (* a Python float power became complex *)

Inductive res (A : Type) : Type :=
| Ok (a : A)
| Err (e : exc).
Arguments Ok {A} a.
Arguments Err {A} e.

Definition bind {A B : Type} (m : res A) (k : A -> res B) : res B :=
  match m with Ok a => k a | Err e => Err e end.

Notation "x <- m ;; k" := (bind m (fun x => k))
  (at level 61, m at next level, right associativity).

(** Python [float / float]. *)
Definition pdiv (x y : fl) : res fl :=
  match y with
  | Num b => if Req_dec_T b 0 then Err ZeroDivisionError else Ok (fdiv x y)
  | NaN => Ok NaN
  end.

(** Python [float ** float]. *)
Definition ppow (x y : fl) : res fl :=
  match x, y with
  | Num a, Num b =>
      if Rlt_dec 0 a then Ok (Num (Rpower a b))
      else if Req_dec_T a 0 then
        (if Rlt_dec b 0 then Err ZeroDivisionError else Ok (Num (real_pow a b)))
      else if is_integral b then Ok (Num (real_pow a b)) else Err ComplexResult
  | _, _ => Ok (npow x y)
  end.

Declare Scope fl_scope.
Delimit Scope fl_scope with fl.
Infix "+!" := fadd (at level 50, left associativity) : fl_scope.
Infix "-!" := fsub (at level 50, left associativity) : fl_scope.
Infix "*!" := fmul (at level 40, left associativity) : fl_scope.
Infix "/!" := fdiv (at level 40, left associativity) : fl_scope.
Open Scope fl_scope.

(** ** Module constants *)

Definition Rs : R := 287.058.
Definition Rd : R := 461.523.
Definition T0_Kelvin : R := 273.15.
Definition VAPOR_PRESSURE : R := 2300.

(** ** Thermodynamic state *)

Definition compute_mu_air (T : fl) : res fl :=
  t15 <- ppow T (Num 1.5) ;;
  pdiv (Num 1.458e-6 *! t15) (T +! Num 110.4).

Definition compute_density (p T phi pv : fl) : res fl :=
  x <- pdiv (phi *! pv) p ;;
  Rf <- pdiv (Num Rs) (Num 1 -! x *! (Num 1 -! Num Rs /! Num Rd)) ;;
  pdiv p (Rf *! T).

Definition Cel2Kel (T : fl) : fl := T +! Num T0_Kelvin.

Definition Kel2Cel (T : fl) : fl := T -! Num T0_Kelvin.

Definition compute_reynolds_number (u d nu : fl) : fl := u *! d /! nu.

(** ** Geometry *)

(** Advisory warnings of [compute_beta] (raised with [warnings.warn]). *)
Inductive warning : Type :=
| WOrificeSmall
| WPipeRange
| WBetaRange.

Definition compute_beta (d D : fl) (unit mounting_type : string)
  : res (fl * list warning) :=
  if fle D d then Err ValueError else
  beta <- pdiv d D ;;
  let '(d, D) :=
    if String.eqb unit "m" then (d *! Num 1000, D *! Num 1000) else (d, D) in
  if negb (String.eqb mounting_type "flange") then Err NotImplementedError else
  if fle d (Num 12.5) then Ok (beta, [WOrificeSmall]) else
  if flt D (Num 50) || fgt D (Num 1000) then Ok (beta, [WPipeRange]) else
  if fge beta (Num 0.10) then
    (if fge (Num 0.75) beta then Ok (beta, []) else Ok (beta, [WBetaRange]))
  else Ok (beta, [WBetaRange]).

(** ** Flow coefficient C and its uncertainty (equation (4)) *)

(** [np.mean] of a scalar is the scalar itself. *)
Definition mean_scalar (x : fl) : fl := x.

Definition flow_coefficient_C (beta D Re : fl) : res fl :=
  L_1 <- pdiv (Num (25.4 / 1000)) D ;;
  L_s2 <- pdiv (Num (25.4 / 1000)) D ;;
  M_s2 <- pdiv (Num 2 *! L_s2) (Num 1 -! beta) ;;
  let A := npow (Num 19000 *! beta /! Re) (Num 0.8) in
  b35 <- ppow beta (Num 3.5) ;;
  q <- pdiv (fpown beta 4) (Num 1 -! fpown beta 4) ;;
  m11 <- ppow M_s2 (Num 1.1) ;;
  b13 <- ppow beta (Num 1.3) ;;
  let C :=
    Num 0.5961 +! Num 0.0261 *! fpown beta 2 -! Num 0.216 *! fpown beta 8
    +! Num 0.000521 *! npow (Num (10 ^ 6) *! beta /! Re) (Num 0.7)
    +! (Num 0.0188 +! Num 0.0063 *! A) *! b35 *! npow (Num (10 ^ 6) /! Re) (Num 0.3)
    +! (Num 0.043 +! Num 0.080 *! fexp (Num (-10) *! L_1)
        -! Num 0.123 *! fexp (Num (-7) *! L_1)) *! (Num 1 -! Num 0.11 *! A) *! q
    -! Num 0.031 *! (M_s2 -! Num 0.8 *! m11) *! b13 in
  if flt D (Num 0.7112) then
    Ok (C +! Num 0.011 *! (Num 0.75 -! beta) *! (Num 2.8 -! D /! Num 0.0254))
  else Ok C.

Definition flow_coefficient_uncertainty (beta D Re : fl) : fl :=
  let uncertainty :=
    if fle (Num 0.1) beta && flt beta (Num 0.2) then (Num 0.7 -! beta) /! Num 100
    else if fle (Num 0.2) beta && fle beta (Num 0.6) then Num 0.5 /! Num 100
    else if flt (Num 0.6) beta && fle beta (Num 0.77) then
      (Num 1.667 *! beta -! Num 0.5) /! Num 100
    else Num 0 in
  let uncertainty :=
    if fgt uncertainty (Num 0) then
      (if fgt beta (Num 0.5) && flt (mean_scalar Re) (Num 10000)
       then uncertainty +! Num 0.5 /! Num 100 else uncertainty)
    else uncertainty in
  if flt D (Num 0.7112) then
    uncertainty +! Num 0.9 *! (Num 0.75 -! beta) *! (Num 2.8 -! D /! Num 25.4) /! Num 100
  else uncertainty.

Definition compute_flow_coefficient (beta D Re : fl) : res (fl * fl) :=
  C <- flow_coefficient_C beta D Re ;;
  Ok (C, flow_coefficient_uncertainty beta D Re).

(** ** Volume flow rate formula [_vfr] *)

Definition _vfr (C_0 beta d eps dp rho : fl) : res fl :=
  if flt dp (Num 0) then
    Ok (C_0 /! fsqrt (Num 1 -! fpown beta 4) *! eps *! Num PI /! Num 4
        *! fpown d 2 *! fsqrt (Num 2 *! fabs dp /! rho) *! fsign dp)
  else
    x <- pdiv (Num 2 *! dp) rho ;;
    Ok (C_0 /! fsqrt (Num 1 -! fpown beta 4) *! eps *! Num PI /! Num 4
        *! fpown d 2 *! fsqrt x).

(** ** Expansion number (equation (5)) *)

Definition compute_expansion_number (beta p1 p2 kappa : fl) : res (fl * fl) :=
  r <- pdiv p2 p1 ;;
  e <- pdiv (Num 1) kappa ;;
  y <- ppow r e ;;
  let eps := Num 1 -! (Num 0.351 +! Num 0.256 *! fpown beta 4
                       +! Num 0.93 *! fpown beta 8) *! (Num 1 -! y) in
  let dp := p2 -! p1 in
  a <- pdiv (Num 3.5 *! dp) kappa ;;
  b <- pdiv a p1 ;;
  Ok (eps, b /! Num 100).

(** ** Temperature input *)



Definition normalize_T_float (T : fl) : fl :=
  if flt T (Num 100) then Cel2Kel T else T.



(** ** The fixed-point iteration *)

(** One pass of the loop body: the [C_guess] it starts from and the values
    it assigns. *)
Record iter : Type := mkIter {
  pass_C_guess : fl;
  vfr_value : fl;
  Re : fl;
  C : fl;
  C_err : fl;
  vfr_value_max : fl;
  vfr_value_min : fl
}.

(** State after the loop: [C_guess], [residuum], the counter [j], the values
    of the last pass (none when the body never ran) and whether the
    "maximum iterations reached" message was printed. *)
Record loop_out : Type := mkLoopOut {
  lo_C_guess : fl;
  lo_residuum : fl;
  lo_j : nat;
  lo_last : option iter;
  lo_capped : bool
}.

Definition eps_res : fl := Num (/ 10 ^ 4).

Section Loop.

(** One pass of the body as a function of the current [C_guess]. *)
Variable body : fl -> res iter.

Fixpoint loop (fuel : nat) (C_guess residuum : fl) (j : nat) (last : option iter)
  : res loop_out :=
  match fuel with
  | O => Ok (mkLoopOut C_guess residuum j last false)
  | S fuel =>
      if fgt (mean_scalar residuum) eps_res then
        it <- body C_guess ;;
        let residuum := fabs (C it -! C_guess) in
        let C_guess := C it in
        let j := S j in
        if Nat.ltb 999 j then Ok (mkLoopOut C_guess residuum j (Some it) true)
        else loop fuel C_guess residuum j (Some it)
      else Ok (mkLoopOut C_guess residuum j last false)
  end.

(** The loop breaks when [j] exceeds 999, so 1000 passes of fuel never run
    out (see [loop_fuel_enough] below). *)
Definition run_loop (C_guess residuum : fl) : res loop_out :=
  loop 1000 C_guess residuum 0 None.

End Loop.

(** ** [compute_volume_flow_rate] *)

Record call : Type := mkCall {
  dp : fl;
  d_orifice : fl;
  d_pipe : fl;
  length_unit : string;
  p1 : fl;
  T : fl;
  phi : fl;
  kappa : fl;
  C_guess : fl;
  residuum : fl
}.

(** A call with the default [phi], [kappa], [C_guess] and [residuum]. *)
Definition default_call (dp d_orifice d_pipe : fl) (length_unit : string)
  (p1 T : fl) : call :=
  mkCall dp d_orifice d_pipe length_unit p1 T (Num 0) (Num 1.4) (Num 0.62) (Num 0.1).

(** Quantities computed once before the loop. *)
Record prelude : Type := mkPrelude {
  pr_beta : fl;
  pr_d_orifice : fl;
  pr_d_pipe : fl;
  A_D : fl;
  pr_T : fl;
  rho_air : fl;
  mu_air : fl;
  nu_air : fl;
  p2 : fl;
  eps : fl;
  eps_uncertainty : fl
}.

Definition compute_prelude (c : call) : res prelude :=
  bw <- compute_beta (d_orifice c) (d_pipe c) (length_unit c) "flange" ;;
  let beta := fst bw in
  let '(d_orifice, d_pipe) :=
    if String.eqb (length_unit c) "mm"
    then (d_orifice c /! Num 1000, d_pipe c /! Num 1000)
    else (d_orifice c, d_pipe c) in
  let A_D := fpown d_orifice 2 /! Num 4 *! Num PI in
  let T := normalize_T_float (T c) in
  rho_air <- compute_density (p1 c) T (phi c) (Num VAPOR_PRESSURE) ;;
  mu_air <- compute_mu_air T ;;
  nu_air <- pdiv mu_air rho_air ;;
  let p2 := p1 c +! dp c in
  ee <- compute_expansion_number beta (p1 c) p2 (kappa c) ;;
  Ok (mkPrelude beta d_orifice d_pipe A_D T rho_air mu_air nu_air p2 (fst ee) (snd ee)).

(** The loop body of the source, lines 288-292. *)
Definition vfr_body (c : call) (pr : prelude) (C_guess : fl) : res iter :=
  let beta := pr_beta pr in
  let eps := eps pr in
  let eps_uncertainty := eps_uncertainty pr in
  vfr_value <- _vfr C_guess beta (pr_d_orifice pr) eps (dp c) (rho_air pr) ;;
  let Re := compute_reynolds_number (vfr_value /! A_D pr) (pr_d_pipe pr) (nu_air pr) in
  CC <- compute_flow_coefficient beta (pr_d_pipe pr) Re ;;
  let '(C, C_err) := CC in
  vfr_value_max <- _vfr (C_guess +! C_err) beta (pr_d_orifice pr)
                     (eps +! eps_uncertainty) (dp c) (rho_air pr) ;;
  vfr_value_min <- _vfr (C_guess -! C_err) beta (pr_d_orifice pr)
                     (eps -! eps_uncertainty) (dp c) (rho_air pr) ;;
  Ok (mkIter C_guess vfr_value Re C C_err vfr_value_max vfr_value_min).

Definition cvfr_trace (c : call) : res (prelude * loop_out) :=
  pr <- compute_prelude c ;;
  lo <- run_loop (vfr_body c pr) (C_guess c) (residuum c) ;;
  Ok (pr, lo).

(** Pressure loss, computed from the [C] of the last pass. *)
Definition pressure_loss (beta C dp : fl) : fl :=
  let s := fsqrt (Num 1 -! fpown beta 4 *! (Num 1 -! fpown C 2)) in
  (s -! C *! fpown beta 2) /! (s +! C *! fpown beta 2) *! dp.

(** The returned tuple [(qv, qv_min, qv_max, dp_loss)]; when the body never
    ran, [C] is unbound and reading it raises. *)
Definition finish (c : call) (pr : prelude) (lo : loop_out) : res (fl * fl * fl * fl) :=
  match lo_last lo with
  | None => Err NameError
  | Some it =>
      let dp_loss := pressure_loss (pr_beta pr) (C it) (dp c) in
      Ok (vfr_value it, vfr_value_min it, vfr_value_max it, dp_loss)
  end.

Definition compute_volume_flow_rate (c : call) : res (fl * fl * fl * fl) :=
  prlo <- cvfr_trace c ;;
  finish c (fst prlo) (snd prlo).

(** Record update of the [length_unit] argument. *)
Definition with_unit (c : call) (u : string) : call :=
  mkCall (dp c) (d_orifice c) (d_pipe c) u (p1 c) (T c) (phi c) (kappa c)
    (C_guess c) (residuum c).

(** Expected value of the uncertainty for [0.5 < beta <= 0.77]: base value
    of the table, Reynolds term and small-bore term. *)
Definition unc_table (b : R) : R :=
  if Rleb b 0.6 then 0.5 / 100 else (1.667 * b - 0.5) / 100.

Definition unc_small_bore (b D : R) : R :=
  if Rltb D 0.7112 then 0.9 * (0.75 - b) * (2.8 - D / 25.4) / 100 else 0.

(** ** Closed forms and concrete calls used in the proofs *)

(** A concrete call: [d = 50 mm], [D = 100 mm], [p1 = 200000 Pa],
    [T = 293.15 K], [dp = 5000 Pa], residual seed [0]. *)
Definition call_seed0 : call :=
  mkCall (Num 5000) (Num 50) (Num 100) "mm" (Num 200000) (Num 293.15)
    (Num 0) (Num 1.4) (Num 0.62) (Num 0).

(** Gain of the flow formula: [pi/4 d^2 sqrt(2|dp|/rho) / sqrt(1 - beta^4)]. *)
Definition vfr_gain (b d x rho : R) : R :=
  PI / 4 * (d * (d * 1)) * sqrt (2 * Rabs x / rho) / sqrt (1 - b * (b * (b * (b * 1)))).

(** The factor [np.sign(dp)] of the negative branch, [1] otherwise. *)
Definition vfr_sign (x : R) : R := if Rltb x 0 then -1 else 1.

(** Diameters after the [length_unit == 'mm'] conversion. *)
Definition unit_scale (u : string) (x : R) : R :=
  if String.eqb u "mm" then x / 1000 else x.

(** A scalar temperature after the Celsius test. *)
Definition T_kelvin (t : R) : R := if Rltb t 100 then t + T0_Kelvin else t.

(** [eps] and [rel_uncertainty] of [compute_expansion_number] for a positive
    pressure ratio. *)
Definition eps_closed (b p p2 k : R) : R :=
  1 - (0.351 + 0.256 * b ^ 4 + 0.93 * b ^ 8) * (1 - Rpower (p2 / p) (1 / k)).

Definition eps_unc_closed (p p2 k : R) : R := 3.5 * (p2 - p) / k / p / 100.

(** [compute_volume_flow_rate(dp=x, d_orifice=0.95, d_pipe=1, length_unit='m',
    p1=1e5, T=293.15, C_guess=cg0)] with the other defaults. *)
Definition call095 (x cg0 : R) : call :=
  mkCall (Num x) (Num 0.95) (Num 1) "m" (Num 100000) (Num 293.15) (Num 0) (Num 1.4)
    (Num cg0) (Num 0.1).

(** Its prelude, with density [r] and dynamic viscosity [m]. *)
Definition pr095 (x r m : R) : prelude :=
  mkPrelude (Num 0.95) (Num 0.95) (Num 1) (Num (0.95 ^ 2 / 4 * PI)) (Num (T_kelvin 293.15))
    (Num r) (Num m) (Num (m / r)) (Num (100000 + x))
    (Num (eps_closed 0.95 100000 (100000 + x) 1.4))
    (Num (eps_unc_closed 100000 (100000 + x) 1.4)).

(** Its Reynolds number in a pass started from [cg]. *)
Definition Re095 (x r m cg : R) : R :=
  vfr_sign x * (cg * eps_closed 0.95 100000 (100000 + x) 1.4) * vfr_gain 0.95 0.95 x r
  / (0.95 ^ 2 / 4 * PI) * 1 / (m / r).

(** A diameter as [compute_beta] tests it, in millimetres: multiplied by
    1000 when the unit is ["m"]. *)
Definition mm_scale (u : string) (x : R) : R :=
  if String.eqb u "m" then x * 1000 else x.

(** * Proofs *)

Ltac decide_R :=
  repeat (simpl; match goal with
  | |- context [Rlt_dec ?a ?b] => destruct (Rlt_dec a b); try lra
  | |- context [Rle_dec ?a ?b] => destruct (Rle_dec a b); try lra
  | |- context [Req_dec_T ?a ?b] => destruct (Req_dec_T a b); try lra
  end); try reflexivity.

Ltac fl_unfold :=
  unfold fadd, fsub, fmul, fopp, fdiv, fpown, fabs, fsign, lift1, lift2,
    flt, fle, fgt, fge, cmp, Rltb, Rleb, mean_scalar in *.


(** ** Geometry *)

Lemma compute_beta_beta_indep_unit (d D : fl) (u u' m : string) :
  bind (compute_beta d D u m) (fun bw => Ok (fst bw)) =
  bind (compute_beta d D u' m) (fun bw => Ok (fst bw)).
Proof.
  unfold compute_beta.
  destruct (fle D d); [reflexivity|].
  destruct (pdiv d D) as [beta|e]; simpl; [|reflexivity].
  destruct (String.eqb u "m"), (String.eqb u' "m");
    destruct (negb (String.eqb m "flange")); simpl; try reflexivity;
    repeat match goal with |- context [if ?b then _ else _] => destruct b end;
    reflexivity.
Qed.

(** C7 (counterexample): with [d = -1], [D = 0] the check [D <= d] passes and
    [d / D] raises [ZeroDivisionError]: an error although [D > d]. *)
Lemma compute_beta_raises_with_D_gt_d :
  compute_beta (Num (-1)) (Num 0) "mm" "flange" = Err ZeroDivisionError /\ ~ (0 <= -1).
Proof.
  split; [|lra].
  unfold compute_beta, pdiv. fl_unfold. decide_R.
Qed.

(** C7 (amended): for flange mounting and any unit, [compute_beta] raises
    exactly when [D <= d] or [D = 0] (the division [d / D]); for
    [0 < d < D] it returns exactly [d / D], whatever advisories it emits. *)
Theorem compute_beta_flange_spec (d D : fl) (x y : R) (u : string) :
  ((exists e, compute_beta d D u "flange" = Err e) <-> (fle D d = true \/ D = Num 0)) /\
  (0 < x < y -> exists w, compute_beta (Num x) (Num y) u "flange" = Ok (Num (x / y), w)).
Proof.
  split.
  - unfold compute_beta.
    destruct (fle D d) eqn:Hle.
    + split; [intros _; left; reflexivity | intros _; eexists; reflexivity].
    + unfold pdiv. destruct D as [b|].
      * destruct (Req_dec_T b 0) as [->|Hb].
        -- split; [intros _; right; reflexivity | intros _; eexists; reflexivity].
        -- simpl. split.
           ++ intros [e He].
              destruct (String.eqb u "m"); simpl in He;
                repeat match type of He with
                | context [if ?c then _ else _] => destruct c
                end; discriminate.
           ++ intros [H|H]; [discriminate | injection H; intros; contradiction].
      * simpl. split.
        -- intros [e He].
           destruct (String.eqb u "m"); simpl in He;
             repeat match type of He with
             | context [if ?c then _ else _] => destruct c
             end; discriminate.
        -- intros [H|H]; discriminate.
  - intros Hxy. unfold compute_beta, pdiv. fl_unfold.
    destruct (Rle_dec y x) as [Hc|_]; [lra|].
    destruct (Req_dec_T y 0) as [Hc|_]; [lra|].
    destruct (Req_dec_T y 0) as [Hc|_]; [lra|].
    destruct (String.eqb u "m"); simpl;
      repeat match goal with |- context [if ?c then _ else _] => destruct c end;
      eexists; reflexivity.
Qed.

Lemma compute_beta_flange_spec_witness :
  0 < 50 < 100 /\
  exists w, compute_beta (Num 50) (Num 100) "mm" "flange" = Ok (Num (50 / 100), w).
Proof.
  split; [lra|].
  apply (proj2 (compute_beta_flange_spec NaN NaN 50 100 "mm")). lra.
Defined.

(** C8: any mounting type other than ["flange"] makes [compute_beta] raise,
    whatever [d], [D] and the unit. *)
Theorem compute_beta_other_mounting_raises (d D : fl) (u m : string) :
  m <> "flange"%string -> exists e, compute_beta d D u m = Err e.
Proof.
  intros Hm. unfold compute_beta.
  destruct (fle D d); [eexists; reflexivity|].
  destruct (pdiv d D) as [beta|e]; simpl; [|eexists; reflexivity].
  assert (Hf : String.eqb m "flange" = false) by (apply String.eqb_neq; exact Hm).
  rewrite Hf. destruct (String.eqb u "m"); simpl; eexists; reflexivity.
Qed.

Lemma compute_beta_other_mounting_raises_witness :
  "pipe"%string <> "flange"%string /\
  exists e, compute_beta (Num 50) (Num 100) "mm" "pipe" = Err e.
Proof.
  split; [discriminate|].
  apply compute_beta_other_mounting_raises. discriminate.
Defined.

Lemma compute_prelude_other_unit (c : call) (u : string) :
  length_unit c <> "mm"%string -> u <> "mm"%string ->
  compute_prelude c = compute_prelude (with_unit c u).
Proof.
  intros Hc Hu. unfold compute_prelude. simpl.
  pose proof (compute_beta_beta_indep_unit (d_orifice c) (d_pipe c) (length_unit c) u
                "flange") as H.
  apply String.eqb_neq in Hc. apply String.eqb_neq in Hu. rewrite Hc, Hu.
  destruct (compute_beta _ _ (length_unit c) _) as [[b1 w1]|e1];
    destruct (compute_beta _ _ u _) as [[b2 w2]|e2];
    simpl in H; try discriminate; inversion H; subst; reflexivity.
Qed.

(** C10: a [length_unit] other than ["mm"] and ["m"] is not rejected: the
    result is that of ["m"], the diameters enter the computation
    unconverted, and the advisory checks of [compute_beta] read them as
    millimetres (as for ["mm"]). *)
Theorem unknown_unit_treated_as_meters (c : call) :
  length_unit c <> "mm"%string -> length_unit c <> "m"%string ->
  compute_volume_flow_rate c = compute_volume_flow_rate (with_unit c "m") /\
  (forall pr, compute_prelude c = Ok pr ->
     pr_d_orifice pr = d_orifice c /\ pr_d_pipe pr = d_pipe c) /\
  (forall d D, compute_beta d D (length_unit c) "flange" = compute_beta d D "mm" "flange").
Proof.
  intros Hmm Hm. split; [|split].
  - unfold compute_volume_flow_rate, cvfr_trace.
    rewrite (compute_prelude_other_unit c "m") by (assumption || discriminate).
    reflexivity.
  - intros pr Hpr. unfold compute_prelude in Hpr.
    apply String.eqb_neq in Hmm. rewrite Hmm in Hpr.
    destruct (compute_beta _ _ _ _) as [bw|e]; simpl in Hpr; [|discriminate].
    destruct (compute_density _ _ _ _); simpl in Hpr; [|discriminate].
    destruct (compute_mu_air _); simpl in Hpr; [|discriminate].
    destruct (pdiv _ _); simpl in Hpr; [|discriminate].
    destruct (compute_expansion_number _ _ _ _); simpl in Hpr; [|discriminate].
    injection Hpr as <-. split; reflexivity.
  - intros d D. unfold compute_beta.
    apply String.eqb_neq in Hm. rewrite Hm. reflexivity.
Qed.

Lemma unknown_unit_treated_as_meters_witness :
  let c := default_call (Num 5000) (Num 5) (Num 10) "cm" (Num 200000) (Num 293.15) in
  length_unit c <> "mm"%string /\ length_unit c <> "m"%string /\
  compute_volume_flow_rate c = compute_volume_flow_rate (with_unit c "m").
Proof.
  intros c. split; [discriminate|split; [discriminate|]].
  apply (unknown_unit_treated_as_meters c); discriminate.
Defined.

(** ** Temperature *)








(** ** Flow coefficient uncertainty *)

Lemma flow_coefficient_C_ok (b D Re : R) :
  0 < b < 1 -> 0 < D -> exists C0, flow_coefficient_C (Num b) (Num D) (Num Re) = Ok C0.
Proof.
  intros Hb HD. unfold flow_coefficient_C, pdiv, ppow. fl_unfold.
  destruct (Req_dec_T D 0) as [|_]; [lra|]. simpl.
  destruct (Req_dec_T (1 - b) 0) as [|_]; [lra|]. simpl.
  destruct (Rlt_dec 0 b) as [_|]; [|lra]. simpl.
  assert (Hb4 : b ^ 4 < 1).
  { replace (b ^ 4) with ((b * b) * (b * b)) by ring.
    assert (0 < b * b < 1) by nra. nra. }
  destruct (Req_dec_T (1 - b * (b * (b * (b * 1)))) 0) as [|_]; [simpl in Hb4; lra|].
  simpl.
  assert (HM : 0 < 2 * (25.4 / 1000 / D) / (1 - b)).
  { apply Rdiv_lt_0_compat; [|lra]. apply Rmult_lt_0_compat; [lra|].
    apply Rdiv_lt_0_compat; lra. }
  destruct (Rlt_dec 0 (2 * (25.4 / 1000 / D) / (1 - b))) as [_|]; [|lra]. simpl.
  destruct (Rlt_dec D 0.7112); eexists; reflexivity.
Qed.

(** C4 (counterexample): for [beta = 0.8] the table gives 0, the guard
    [uncertainty > 0] fails and no [0.5/100] is added, although
    [beta > 0.5] and [Re = 5000 < 10000]. *)
Lemma reynolds_term_skipped_above_077 :
  (exists C0, compute_flow_coefficient (Num 0.8) (Num 1) (Num 5000) = Ok (C0, Num 0)) /\
  Num 0 <> Num (0 + 0.5 / 100).
Proof.
  split.
  - destruct (flow_coefficient_C_ok 0.8 1 5000) as [C0 HC]; [lra|lra|].
    exists C0. unfold compute_flow_coefficient. rewrite HC. simpl.
    f_equal. f_equal.
    unfold flow_coefficient_uncertainty. fl_unfold. decide_R.
  - intros H. injection H. lra.
Qed.

(** C4 (amended): for [0.5 < beta <= 0.77] and [Re < 10000] the
    uncertainty is the table value plus [0.5/100] (plus the small-bore term);
    for [beta > 0.77] the table value is 0 and only the small-bore term
    remains, without the [0.5/100] term. *)
Theorem reynolds_term_when_table_positive (b D Re : R) :
  (0.5 < b <= 0.77 -> Re < 10000 ->
   flow_coefficient_uncertainty (Num b) (Num D) (Num Re)
   = Num (unc_table b + 0.5 / 100 + unc_small_bore b D)) /\
  (0.77 < b ->
   flow_coefficient_uncertainty (Num b) (Num D) (Num Re) = Num (0 + unc_small_bore b D)).
Proof.
  unfold unc_table, unc_small_bore, flow_coefficient_uncertainty, Rltb, Rleb.
  split.
  - intros Hb HRe. fl_unfold. decide_R; f_equal; lra.
  - intros Hb. fl_unfold. decide_R; f_equal; lra.
Qed.

Lemma reynolds_term_when_table_positive_witness :
  (0.5 < 0.7 <= 0.77 /\ 5000 < 10000) /\
  flow_coefficient_uncertainty (Num 0.7) (Num 1) (Num 5000)
  = Num (unc_table 0.7 + 0.5 / 100 + unc_small_bore 0.7 1).
Proof.
  split; [lra|].
  apply (proj1 (reynolds_term_when_table_positive 0.7 1 5000)); lra.
Defined.

(** C5: the small-bore uncertainty term divides [D] (in metres) by [25.4]
    while the small-bore correction of [C] divides it by [0.0254]: at
    [beta = 0.5], [D = 0.05 m] the term uses [2.8 - 0.05/25.4] instead of
    [2.8 - 0.05/0.0254]. *)
Theorem small_bore_uncertainty_scaling :
  flow_coefficient_uncertainty (Num 0.5) (Num 0.05) (Num 100000)
  = Num (0.5 / 100 + 0.9 * (0.75 - 0.5) * (2.8 - 0.05 / 25.4) / 100) /\
  flow_coefficient_uncertainty (Num 0.5) (Num 0.05) (Num 100000)
  <> Num (0.5 / 100 + 0.9 * (0.75 - 0.5) * (2.8 - 0.05 / 0.0254) / 100).
Proof.
  assert (H : flow_coefficient_uncertainty (Num 0.5) (Num 0.05) (Num 100000)
              = Num (0.5 / 100 + 0.9 * (0.75 - 0.5) * (2.8 - 0.05 / 25.4) / 100)).
  { unfold flow_coefficient_uncertainty. fl_unfold. decide_R; f_equal; lra. }
  split; [exact H|]. rewrite H. intros Heq. injection Heq. lra.
Qed.

(** ** The iteration loop *)

Section LoopFacts.

Variable body : fl -> res iter.

(** With [j + fuel = 1000] and [j < 1000] on entry, the fuel never runs out:
    the loop stops by the residual test or by the break at [j > 999]. *)
Lemma loop_fuel_enough (fuel : nat) (Cg r : fl) (j : nat) (last : option iter)
  (o : loop_out) :
  (j + fuel = 1000)%nat -> (j < 1000)%nat ->
  loop body fuel Cg r j last = Ok o ->
  (j <= lo_j o <= 1000)%nat /\
  (fgt (lo_residuum o) eps_res = true -> lo_j o = 1000%nat /\ lo_capped o = true) /\
  (lo_capped o = true -> lo_last o <> None) /\
  (lo_j o = j -> lo_last o = last) /\
  ((j < lo_j o)%nat -> lo_last o <> None).
Proof.
  revert Cg r j last.
  induction fuel as [|fuel IH]; intros Cg r j last Hsum Hlt Hloop.
  - lia.
  - cbn [loop] in Hloop.
    destruct (fgt (mean_scalar r) eps_res) eqn:Hr.
    + destruct (body Cg) as [it|e]; cbn [bind] in Hloop; [|discriminate].
      destruct (Nat.ltb 999 (S j)) eqn:Hj.
      * injection Hloop as <-. simpl. apply Nat.ltb_lt in Hj.
        split; [lia|]. split; [intros _; split; [lia|reflexivity]|].
        split; [intros _; discriminate|]. split; [intros; lia|].
        intros _; discriminate.
      * apply Nat.ltb_ge in Hj.
        assert (Hs' : (S j + fuel = 1000)%nat) by lia.
        assert (Hl' : (S j < 1000)%nat) by lia.
        destruct (IH _ _ _ _ Hs' Hl' Hloop) as (H1 & H2 & H3 & H4 & H5).
        split; [lia|]. split; [exact H2|]. split; [exact H3|].
        split; [intros; lia|].
        intros _. destruct (Nat.eq_dec (lo_j o) (S j)) as [He|Hne].
        -- rewrite (H4 He). discriminate.
        -- apply H5. lia.
    + injection Hloop as <-. cbn [lo_j lo_residuum lo_capped lo_last].
      unfold mean_scalar in Hr. rewrite Hr.
      split; [lia|]. split; [discriminate|]. split; [discriminate|].
      split; [reflexivity|]. intros; lia.
Qed.

End LoopFacts.

Lemma run_loop_no_pass (body : fl -> res iter) (Cg : fl) (r : R) :
  r <= / 10 ^ 4 -> run_loop body Cg (Num r) = Ok (mkLoopOut Cg (Num r) 0 None false).
Proof.
  intros Hr. unfold run_loop. cbn [loop].
  unfold fgt, cmp, mean_scalar, eps_res, Rltb.
  destruct (Rlt_dec (/ 10 ^ 4) r); [lra|reflexivity].
Qed.

(** C3: the loop makes at most 1000 passes; if the residual is still above
    [1e-4] when it stops, it stopped at the cap, printed the "maximum
    iterations reached" message and the function returns a tuple. *)
Theorem iteration_capped_at_1000 (c : call) (pr : prelude) (lo : loop_out) :
  cvfr_trace c = Ok (pr, lo) ->
  (lo_j lo <= 1000)%nat /\
  (fgt (lo_residuum lo) eps_res = true ->
   lo_j lo = 1000%nat /\ lo_capped lo = true /\
   exists out, compute_volume_flow_rate c = Ok out).
Proof.
  intros H. unfold compute_volume_flow_rate. rewrite H. cbn [bind fst snd].
  unfold cvfr_trace in H.
  destruct (compute_prelude c) as [pr'|e]; cbn [bind] in H; [|discriminate].
  destruct (run_loop (vfr_body c pr') (C_guess c) (residuum c)) as [lo'|e] eqn:Hl;
    cbn [bind] in H; [|discriminate].
  injection H as <- <-.
  destruct (loop_fuel_enough _ 1000 _ _ 0 None lo' eq_refl ltac:(lia) Hl)
    as (H1 & H2 & H3 & _ & _).
  split; [lia|]. intros Hres. destruct (H2 Hres) as [Hj Hc].
  split; [exact Hj|]. split; [exact Hc|].
  unfold finish. destruct (lo_last lo') as [it|] eqn:Hlast.
  - eexists; reflexivity.
  - exfalso. exact (H3 Hc eq_refl).
Qed.

Lemma call_seed0_prelude : exists pr, compute_prelude call_seed0 = Ok pr.
Proof.
  unfold compute_prelude, call_seed0, compute_beta, compute_density, compute_mu_air,
    compute_expansion_number, pdiv, ppow, normalize_T_float, Cel2Kel, Rs, Rd,
    VAPOR_PRESSURE.
  fl_unfold. decide_R. eexists; reflexivity.
Qed.

(** C9: with a residual seed at most [1e-4] the body never runs; no tuple is
    returned, and once the computations before the loop succeed the read of
    the unbound [C] raises a [NameError]. *)
Theorem small_residuum_seed_raises (c : call) (r : R) :
  residuum c = Num r -> r <= / 10 ^ 4 ->
  (forall pr lo, cvfr_trace c = Ok (pr, lo) -> lo_j lo = 0%nat /\ lo_last lo = None) /\
  (forall out, compute_volume_flow_rate c <> Ok out) /\
  (forall pr, compute_prelude c = Ok pr -> compute_volume_flow_rate c = Err NameError).
Proof.
  intros Hc Hr.
  assert (Hrun : forall pr, run_loop (vfr_body c pr) (C_guess c) (residuum c)
                 = Ok (mkLoopOut (C_guess c) (Num r) 0 None false)).
  { intros pr. rewrite Hc. apply run_loop_no_pass. exact Hr. }
  split; [|split].
  - intros pr lo H. unfold cvfr_trace in H.
    destruct (compute_prelude c) as [pr'|e]; cbn [bind] in H; [|discriminate].
    rewrite Hrun in H. cbn [bind] in H. injection H as <- <-. split; reflexivity.
  - intros out H. unfold compute_volume_flow_rate, cvfr_trace in H.
    destruct (compute_prelude c) as [pr'|e]; cbn [bind] in H; [|discriminate].
    rewrite Hrun in H. cbn [bind fst snd finish lo_last] in H. discriminate.
  - intros pr Hpr. unfold compute_volume_flow_rate, cvfr_trace. rewrite Hpr.
    cbn [bind]. rewrite Hrun. reflexivity.
Qed.

Lemma small_residuum_seed_raises_witness :
  residuum call_seed0 = Num 0 /\ 0 <= / 10 ^ 4 /\
  exists pr, compute_prelude call_seed0 = Ok pr /\
             compute_volume_flow_rate call_seed0 = Err NameError.
Proof.
  assert (Hr : 0 <= / 10 ^ 4)
    by (left; apply Rinv_0_lt_compat; apply pow_lt; lra).
  split; [reflexivity|]. split; [exact Hr|].
  destruct call_seed0_prelude as [pr Hpr]. exists pr. split; [exact Hpr|].
  exact (proj2 (proj2 (small_residuum_seed_raises call_seed0 0 eq_refl Hr)) pr Hpr).
Defined.

(** ** Closed forms *)

Lemma div_nonneg (a b : R) : 0 <= a -> 0 < b -> 0 <= a / b.
Proof.
  intros Ha Hb. unfold Rdiv. apply Rmult_le_pos; [exact Ha|].
  left. apply Rinv_0_lt_compat. exact Hb.
Qed.

Lemma vfr_closed_form (c0 b d e x rho : R) :
  0 < rho -> b * (b * (b * (b * 1))) < 1 ->
  _vfr (Num c0) (Num b) (Num d) (Num e) (Num x) (Num rho)
  = Ok (Num (vfr_sign x * (c0 * e) * vfr_gain b d x rho)).
Proof.
  intros Hr Hb. unfold _vfr, vfr_sign, vfr_gain, fsqrt, pdiv. fl_unfold. simpl.
  assert (Hs : 0 < sqrt (1 - b * (b * (b * (b * 1))))) by (apply sqrt_lt_R0; lra).
  destruct (Rlt_dec x 0) as [Hx|Hx]; simpl.
  - destruct (Rlt_dec (1 - b * (b * (b * (b * 1)))) 0) as [|_]; [lra|]. simpl.
    destruct (Req_dec_T (sqrt (1 - b * (b * (b * (b * 1))))) 0) as [|_]; [lra|].
    destruct (Req_dec_T 4 0) as [|_]; [lra|]. simpl.
    destruct (Req_dec_T rho 0) as [|_]; [lra|]. simpl.
    destruct (Rlt_dec (2 * Rabs x / rho) 0) as [Hc|_].
    { exfalso. assert (0 <= 2 * Rabs x / rho)
        by (apply div_nonneg; [pose proof (Rabs_pos x); lra|lra]). lra. }
    destruct (Rlt_dec x 0) as [_|]; [|lra].
    f_equal. f_equal. field. lra.
  - destruct (Req_dec_T rho 0) as [|_]; [lra|]. simpl.
    destruct (Rlt_dec (1 - b * (b * (b * (b * 1)))) 0) as [|_]; [lra|]. simpl.
    destruct (Req_dec_T (sqrt (1 - b * (b * (b * (b * 1))))) 0) as [|_]; [lra|].
    destruct (Req_dec_T 4 0) as [|_]; [lra|]. simpl.
    destruct (Rlt_dec (2 * x / rho) 0) as [Hc|_].
    { exfalso. assert (0 <= 2 * x / rho) by (apply div_nonneg; lra). lra. }
    rewrite Rabs_right by lra.
    f_equal. f_equal. field. lra.
Qed.

Lemma vfr_gain_pos (b d x rho : R) :
  0 < rho -> b * (b * (b * (b * 1))) < 1 -> d <> 0 -> x <> 0 -> 0 < vfr_gain b d x rho.
Proof.
  intros Hr Hb Hd Hx. unfold vfr_gain.
  assert (Hs : 0 < sqrt (1 - b * (b * (b * (b * 1))))) by (apply sqrt_lt_R0; lra).
  assert (Hq : 0 < sqrt (2 * Rabs x / rho)).
  { apply sqrt_lt_R0. apply Rdiv_lt_0_compat; [|lra].
    pose proof (Rabs_pos_lt x Hx). lra. }
  assert (Hd2 : 0 < d * (d * 1)) by (rewrite Rmult_1_r; apply Rsqr_pos_lt; exact Hd).
  apply Rdiv_lt_0_compat; [|exact Hs].
  apply Rmult_lt_0_compat; [|exact Hq].
  apply Rmult_lt_0_compat; [|exact Hd2].
  pose proof PI_RGT_0. lra.
Qed.

(** ** Bounds on real powers *)

Lemma Rpower_pos (x y : R) : 0 < Rpower x y.
Proof. unfold Rpower. apply exp_pos. Qed.

Lemma ln_neg_lt1 (x : R) : 0 < x < 1 -> ln x < 0.
Proof. intros [H0 H1]. rewrite <- ln_1. apply ln_increasing; lra. Qed.

Lemma ln_nonneg_ge1 (x : R) : 1 <= x -> 0 <= ln x.
Proof.
  intros H. rewrite <- ln_1. destruct (Req_dec x 1) as [->|Hn]; [lra|].
  left. apply ln_increasing; lra.
Qed.

Lemma Rpower_le1_base_lt1 (x y : R) : 0 < x < 1 -> 0 <= y -> Rpower x y <= 1.
Proof.
  intros Hx Hy. unfold Rpower. rewrite <- exp_0.
  pose proof (ln_neg_lt1 x Hx).
  destruct (Req_dec y 0) as [->|Hn].
  - rewrite Rmult_0_l. lra.
  - left. apply exp_increasing. nra.
Qed.

Lemma Rpower_ge1 (x y : R) : 1 <= x -> 0 <= y -> 1 <= Rpower x y.
Proof.
  intros Hx Hy. unfold Rpower. rewrite <- exp_0.
  pose proof (ln_nonneg_ge1 x Hx).
  destruct (Req_dec (y * ln x) 0) as [He|He].
  - rewrite He. lra.
  - left. apply exp_increasing. nra.
Qed.

Lemma Rpower_ge1_base_le1 (x y : R) : 0 < x <= 1 -> y <= 0 -> 1 <= Rpower x y.
Proof.
  intros Hx Hy. unfold Rpower. rewrite <- exp_0.
  assert (Hl : ln x <= 0).
  { destruct (Req_dec x 1) as [->|Hn]; [rewrite ln_1; lra|].
    left. apply ln_neg_lt1. lra. }
  destruct (Req_dec (y * ln x) 0) as [He|He].
  - rewrite He. lra.
  - left. apply exp_increasing. nra.
Qed.

Lemma Rpower_anti_exp (x y z : R) : 0 < x < 1 -> y <= z -> Rpower x z <= Rpower x y.
Proof.
  intros Hx Hyz. unfold Rpower. pose proof (ln_neg_lt1 x Hx).
  destruct (Req_dec y z) as [->|Hn]; [lra|].
  left. apply exp_increasing. nra.
Qed.

Lemma Rpower_4 (x : R) : 0 < x -> Rpower x 4 = x * (x * (x * (x * 1))).
Proof.
  intros Hx. replace 4 with (INR 4) by (simpl; lra).
  rewrite Rpower_pow by exact Hx. simpl. reflexivity.
Qed.

Lemma Rpower_le_self (x y : R) : 1 <= x -> 0 <= y <= 1 -> Rpower x y <= x.
Proof.
  intros Hx Hy. apply Rle_trans with (Rpower x 1).
  - apply Rle_Rpower; lra.
  - rewrite Rpower_1 by lra. lra.
Qed.

Lemma Rpower_100_03 : 3 <= Rpower 100 0.3.
Proof.
  unfold Rpower. rewrite <- (exp_ln 3) at 1 by lra.
  destruct (Req_dec (ln 3) (0.3 * ln 100)) as [He|He]; [rewrite He; lra|].
  left. apply exp_increasing.
  assert (H10 : ln (3 ^ 10) < ln (100 ^ 3)).
  { apply ln_increasing; [apply pow_lt; lra|]. simpl. lra. }
  rewrite !ln_pow in H10 by lra. simpl in H10. lra.
Qed.

Lemma Rpower_001 : Rpower 0.01 (1 / 1.4) <= 0.1.
Proof.
  unfold Rpower. rewrite <- (exp_ln 0.1) by lra.
  replace 0.01 with (0.1 * 0.1) by lra. rewrite ln_mult by lra.
  pose proof (ln_neg_lt1 0.1 ltac:(lra)).
  left. apply exp_increasing.
  replace (1 / 1.4) with (5 / 7) by lra. lra.
Qed.

Lemma exp_bounds_neg (x y : R) : 0 <= x -> y = - x -> 1 - x <= exp y <= 1.
Proof.
  intros Hx ->. split.
  - pose proof (exp_ineq1_le (- x)). lra.
  - rewrite <- exp_0. destruct (Req_dec x 0) as [->|Hn].
    + rewrite Ropp_0. lra.
    + left. apply exp_increasing. lra.
Qed.

Lemma C_pos_095 (Re : R) : 0 < Re ->
  exists c, flow_coefficient_C (Num 0.95) (Num 1) (Num Re) = Ok (Num c) /\ 0 < c.
Proof.
  intros HRe. unfold flow_coefficient_C, pdiv, ppow, npow, fexp. fl_unfold.
  assert (H1 : 0 < 19000 * 0.95 / Re) by (apply Rdiv_lt_0_compat; lra).
  assert (H2 : 0 < 10 * (10 * (10 * (10 * (10 * (10 * 1))))) * 0.95 / Re)
    by (apply Rdiv_lt_0_compat; lra).
  assert (H3 : 0 < 10 * (10 * (10 * (10 * (10 * (10 * 1))))) / Re)
    by (apply Rdiv_lt_0_compat; lra).
  decide_R.
  eexists; split; [reflexivity|].
  set (A := Rpower (19000 * 0.95 / Re) 0.8).
  set (P3 := Rpower (10 * (10 * (10 * (10 * (10 * (10 * 1))))) / Re) 0.3).
  set (b35 := Rpower 0.95 3.5).
  set (b13 := Rpower 0.95 1.3).
  set (m11 := Rpower (2 * (25.4 / 1000 / 1) / (1 - 0.95)) 1.1).
  set (P7 := Rpower (10 * (10 * (10 * (10 * (10 * (10 * 1))))) * 0.95 / Re) 0.7).
  set (E1 := exp (-10 * (25.4 / 1000 / 1))).
  set (E2 := exp (-7 * (25.4 / 1000 / 1))).
  assert (HA : 0 < A) by apply Rpower_pos.
  assert (HP3 : 0 < P3) by apply Rpower_pos.
  assert (HP7 : 0 < P7) by apply Rpower_pos.
  assert (Hm : 0 < m11) by apply Rpower_pos.
  assert (Hb13 : 0 < b13 <= 1).
  { split; [apply Rpower_pos|apply Rpower_le1_base_lt1; lra]. }
  assert (Hb35 : 0.81450625 <= b35).
  { unfold b35. apply Rle_trans with (Rpower 0.95 4).
    - rewrite Rpower_4 by lra. lra.
    - apply Rpower_anti_exp; lra. }
  assert (HE1 : 0 < E1 <= 1).
  { unfold E1. split; [apply exp_pos|].
    pose proof (exp_bounds_neg 0.254 (-10 * (25.4 / 1000 / 1)) ltac:(lra) ltac:(lra)).
    lra. }
  assert (HE2 : 0.8222 <= E2 <= 1).
  { unfold E2.
    pose proof (exp_bounds_neg 0.1778 (-7 * (25.4 / 1000 / 1)) ltac:(lra) ltac:(lra)).
    lra. }
  set (KL := 0.043 + 0.080 * E1 - 0.123 * E2).
  assert (HKL : -0.08 <= KL <= 0.02187) by (unfold KL; nra).
  assert (HKA : KL * A <= 0.02187 * A) by nra.
  assert (HT4 : 0.031 * (2 * (25.4 / 1000 / 1) / (1 - 0.95) - 0.8 * m11) * b13 <= 0.031496).
  { replace (2 * (25.4 / 1000 / 1) / (1 - 0.95)) with 1.016 by lra. nra. }
  assert (HZ : 0 <= b35 * P3) by nra.
  assert (HAZ : 0 <= A * (b35 * P3)) by nra.
  destruct (Rle_dec 10000 Re) as [Hbig|Hsmall].
  - assert (HA1 : A <= 1.805).
    { unfold A. apply Rle_trans with (Rpower 1.805 0.8).
      - apply Rle_Rpower_l; [lra|]. split; [lra|].
        apply Rmult_le_reg_r with Re; [lra|]. unfold Rdiv.
        rewrite Rmult_assoc, Rinv_l by lra. nra.
      - apply Rpower_le_self; lra. }
    nra.
  - assert (HP3b : 3 <= P3).
    { unfold P3. apply Rle_trans with (Rpower 100 0.3); [apply Rpower_100_03|].
      apply Rle_Rpower_l; [lra|]. split; [lra|].
      apply Rmult_le_reg_r with Re; [lra|]. unfold Rdiv.
      rewrite Rmult_assoc, Rinv_l by lra. nra. }
    assert (HZ3 : 2.4435 <= b35 * P3) by nra.
    assert (HAZ3 : 2.4435 * A <= A * (b35 * P3)) by nra.
    nra.
Qed.

(** ** The prelude in closed form, for physical inputs *)

Lemma compute_beta_ok (x y : R) (u : string) :
  0 < x < y -> exists w, compute_beta (Num x) (Num y) u "flange" = Ok (Num (x / y), w).
Proof.
  intros Hxy. unfold compute_beta, pdiv. fl_unfold.
  destruct (Rle_dec y x) as [Hc|_]; [lra|].
  destruct (Req_dec_T y 0) as [Hc|_]; [lra|].
  destruct (Req_dec_T y 0) as [Hc|_]; [lra|].
  destruct (String.eqb u "m"); simpl;
    repeat match goal with |- context [if ?c then _ else _] => destruct c end;
    eexists; reflexivity.
Qed.

Lemma T_kelvin_pos (t : R) : 0 < t -> 0 < T_kelvin t.
Proof. intros Ht. unfold T_kelvin, Rltb, T0_Kelvin. destruct (Rlt_dec t 100); lra. Qed.

Lemma normalize_T_float_Num (t : R) : normalize_T_float (Num t) = Num (T_kelvin t).
Proof.
  unfold normalize_T_float, T_kelvin, Cel2Kel. fl_unfold.
  destruct (Rlt_dec t 100); reflexivity.
Qed.

Lemma compute_density_pos (p t h : R) :
  2300 < p -> 0 < t -> 0 <= h <= 1 ->
  exists r, compute_density (Num p) (Num t) (Num h) (Num VAPOR_PRESSURE) = Ok (Num r) /\ 0 < r.
Proof.
  intros Hp Ht Hh. unfold compute_density, pdiv, VAPOR_PRESSURE, Rs, Rd. fl_unfold.
  assert (Hx : 0 <= h * 2300 / p <= 1).
  { split; [apply div_nonneg; nra|].
    apply Rmult_le_reg_r with p; [lra|]. unfold Rdiv.
    rewrite Rmult_assoc, Rinv_l by lra. nra. }
  assert (Hden : 0 < 1 - h * 2300 / p * (1 - 287.058 / 461.523)) by nra.
  assert (HRf : 0 < 287.058 / (1 - h * 2300 / p * (1 - 287.058 / 461.523)))
    by (apply Rdiv_lt_0_compat; lra).
  assert (HRT : 0 < 287.058 / (1 - h * 2300 / p * (1 - 287.058 / 461.523)) * t) by nra.
  destruct (Req_dec_T 461.523 0) as [|_]; [lra|].
  destruct (Req_dec_T p 0) as [|_]; [lra|]. simpl.
  destruct (Req_dec_T (1 - h * 2300 / p * (1 - 287.058 / 461.523)) 0) as [|_]; [lra|].
  simpl.
  destruct (Req_dec_T (287.058 / (1 - h * 2300 / p * (1 - 287.058 / 461.523)) * t) 0)
    as [|_]; [lra|].
  eexists; split; [reflexivity|]. apply Rdiv_lt_0_compat; lra.
Qed.

Lemma compute_mu_air_pos (t : R) :
  0 < t -> exists m, compute_mu_air (Num t) = Ok (Num m) /\ 0 < m.
Proof.
  intros Ht. unfold compute_mu_air, ppow, pdiv. fl_unfold.
  destruct (Rlt_dec 0 t) as [_|]; [|lra]. simpl.
  destruct (Req_dec_T (t + 110.4) 0) as [|_]; [lra|].
  eexists; split; [reflexivity|].
  pose proof (Rpower_pos t 1.5). apply Rdiv_lt_0_compat; nra.
Qed.

Lemma compute_expansion_closed (b p p2 k : R) :
  0 < p -> 0 < p2 -> k <> 0 ->
  compute_expansion_number (Num b) (Num p) (Num p2) (Num k)
  = Ok (Num (eps_closed b p p2 k), Num (eps_unc_closed p p2 k)).
Proof.
  intros Hp Hp2 Hk. unfold compute_expansion_number, pdiv, ppow. fl_unfold.
  assert (Hr : 0 < p2 / p) by (apply Rdiv_lt_0_compat; lra).
  destruct (Req_dec_T p 0) as [|_]; [lra|]. simpl.
  destruct (Req_dec_T k 0) as [|_]; [lra|]. simpl.
  destruct (Rlt_dec 0 (p2 / p)) as [_|]; [|lra]. simpl.
  destruct (Req_dec_T 100 0) as [|_]; [lra|]. reflexivity.
Qed.

Lemma compute_prelude_closed (c : call) (x dd DD p t h k : R) :
  dp c = Num x -> d_orifice c = Num dd -> d_pipe c = Num DD -> p1 c = Num p ->
  T c = Num t -> phi c = Num h -> kappa c = Num k ->
  0 < dd < DD -> 2300 < p -> 0 < p + x -> 0 < t -> 0 <= h <= 1 -> k <> 0 ->
  exists r m, 0 < r /\ 0 < m /\
    compute_prelude c =
    Ok (mkPrelude (Num (dd / DD)) (Num (unit_scale (length_unit c) dd))
          (Num (unit_scale (length_unit c) DD))
          (Num (unit_scale (length_unit c) dd ^ 2 / 4 * PI)) (Num (T_kelvin t))
          (Num r) (Num m) (Num (m / r)) (Num (p + x))
          (Num (eps_closed (dd / DD) p (p + x) k)) (Num (eps_unc_closed p (p + x) k))).
Proof.
  intros Hx Hd HD Hp Ht Hh Hk Hdd Hp0 Hpx Ht0 Hh0 Hk0.
  destruct (compute_beta_ok dd DD (length_unit c) Hdd) as [w Hb].
  pose proof (T_kelvin_pos t Ht0) as HT.
  destruct (compute_density_pos p (T_kelvin t) h Hp0 HT Hh0) as [r [Hr Hr0]].
  destruct (compute_mu_air_pos (T_kelvin t) HT) as [m [Hm Hm0]].
  exists r, m. split; [exact Hr0|]. split; [exact Hm0|].
  unfold compute_prelude. rewrite Hd, HD, Hb. cbn [bind fst].
  rewrite Ht, normalize_T_float_Num, Hp, Hh, Hr. cbn [bind].
  rewrite Hm. cbn [bind].
  unfold pdiv. destruct (Req_dec_T r 0) as [|_]; [lra|]. cbn [bind].
  rewrite Hx, Hk. unfold fadd, lift2.
  rewrite compute_expansion_closed by lra. cbn [bind fst snd].
  unfold unit_scale. destruct (String.eqb (length_unit c) "mm"); fl_unfold;
    simpl; repeat match goal with
    | |- context [Req_dec_T ?a ?b] => destruct (Req_dec_T a b); try lra
    end; reflexivity.
Qed.

(** ** One pass of the loop in closed form *)

Lemma b4_lt1 (b : R) : 0 < b < 1 -> b * (b * (b * (b * 1))) < 1.
Proof. intros Hb. assert (0 < b * b < 1) by nra. nra. Qed.

Lemma flow_coefficient_uncertainty_Num (b D Re : R) :
  exists e, flow_coefficient_uncertainty (Num b) (Num D) (Num Re) = Num e.
Proof.
  unfold flow_coefficient_uncertainty. fl_unfold. decide_R; eexists; reflexivity.
Qed.

Lemma vfr_body_closed (c : call) (pr : prelude) (cg b d D a r n ep u x : R) :
  pr_beta pr = Num b -> pr_d_orifice pr = Num d -> pr_d_pipe pr = Num D -> A_D pr = Num a ->
  rho_air pr = Num r -> nu_air pr = Num n -> eps pr = Num ep ->
  eps_uncertainty pr = Num u -> dp c = Num x ->
  0 < b < 1 -> 0 < D -> a <> 0 -> n <> 0 -> 0 < r ->
  exists C0 e,
    flow_coefficient_C (Num b) (Num D)
      (Num (vfr_sign x * (cg * ep) * vfr_gain b d x r / a * D / n)) = Ok C0 /\
    flow_coefficient_uncertainty (Num b) (Num D)
      (Num (vfr_sign x * (cg * ep) * vfr_gain b d x r / a * D / n)) = Num e /\
    vfr_body c pr (Num cg) =
    Ok (mkIter (Num cg) (Num (vfr_sign x * (cg * ep) * vfr_gain b d x r))
          (Num (vfr_sign x * (cg * ep) * vfr_gain b d x r / a * D / n)) C0 (Num e)
          (Num (vfr_sign x * ((cg + e) * (ep + u)) * vfr_gain b d x r))
          (Num (vfr_sign x * ((cg - e) * (ep - u)) * vfr_gain b d x r))).
Proof.
  intros Hb Hd HD Ha Hr Hn He Hu Hx Hb0 HD0 Ha0 Hn0 Hr0.
  pose proof (b4_lt1 b Hb0) as Hb4.
  set (Re := vfr_sign x * (cg * ep) * vfr_gain b d x r / a * D / n).
  destruct (flow_coefficient_C_ok b D Re Hb0 HD0) as [C0 HC].
  destruct (flow_coefficient_uncertainty_Num b D Re) as [e Hunc].
  exists C0, e. split; [exact HC|]. split; [exact Hunc|].
  unfold vfr_body. rewrite Hb, Hd, HD, Ha, Hr, Hn, He, Hu, Hx.
  rewrite vfr_closed_form by assumption. cbn [bind].
  unfold compute_reynolds_number. fl_unfold.
  destruct (Req_dec_T a 0) as [|_]; [contradiction|].
  destruct (Req_dec_T n 0) as [|_]; [contradiction|].
  fold Re. unfold compute_flow_coefficient. rewrite HC, Hunc. cbn [bind].
  rewrite !vfr_closed_form by assumption. cbn [bind]. reflexivity.
Qed.

(** ** The last pass of the loop *)

Section LoopLast.

Variable body : fl -> res iter.

Lemma loop_step (fuel : nat) (Cg r : fl) (j : nat) (last : option iter) :
  loop body (S fuel) Cg r j last =
  if fgt (mean_scalar r) eps_res then
    it <- body Cg ;;
    if Nat.ltb 999 (S j)
    then Ok (mkLoopOut (C it) (fabs (C it -! Cg)) (S j) (Some it) true)
    else loop body fuel (C it) (fabs (C it -! Cg)) (S j) (Some it)
  else Ok (mkLoopOut Cg r j last false).
Proof. reflexivity. Qed.

(** The iteration kept at the end is the seed or the result of a pass. *)
Lemma loop_last_from_body (fuel : nat) (Cg r : fl) (j : nat) (last : option iter)
  (o : loop_out) (it : iter) :
  loop body fuel Cg r j last = Ok o -> lo_last o = Some it ->
  last = Some it \/ exists cg, body cg = Ok it.
Proof.
  revert Cg r j last.
  induction fuel as [|fuel IH]; intros Cg r j last Hloop Hit.
  - cbn [loop] in Hloop. injection Hloop as <-. left. exact Hit.
  - cbn [loop] in Hloop.
    destruct (fgt (mean_scalar r) eps_res).
    + destruct (body Cg) as [it'|e] eqn:Hb; cbn [bind] in Hloop; [|discriminate].
      destruct (Nat.ltb 999 (S j)).
      * injection Hloop as <-. cbn [lo_last] in Hit. injection Hit as ->.
        right. exists Cg. exact Hb.
      * destruct (IH _ _ _ _ Hloop Hit) as [H|H]; [|right; exact H].
        injection H as ->. right. exists Cg. exact Hb.
    + injection Hloop as <-. left. exact Hit.
Qed.

Variable Q : iter -> Prop.

Hypothesis body_pos : forall cg, 0 < cg ->
  exists it, body (Num cg) = Ok it /\ Q it /\ exists c', C it = Num c' /\ 0 < c'.

(** While every pass started from a positive [C_guess] returns a positive
    [C], the loop succeeds and the kept pass satisfies [Q]. *)
Lemma loop_keeps (fuel : nat) (cg : R) (r : fl) (j : nat) (it0 : iter) :
  0 < cg -> Q it0 ->
  exists o it, loop body fuel (Num cg) r j (Some it0) = Ok o /\
    lo_last o = Some it /\ Q it.
Proof.
  revert cg r j it0.
  induction fuel as [|fuel IH]; intros cg r j it0 Hcg HQ.
  - eexists; exists it0. split; [reflexivity|]. split; [reflexivity|exact HQ].
  - cbn [loop]. destruct (fgt (mean_scalar r) eps_res).
    + destruct (body_pos cg Hcg) as [it [Hb [HQ' [c' [Hc Hc']]]]].
      rewrite Hb. cbn [bind]. destruct (Nat.ltb 999 (S j)).
      * eexists; exists it. split; [reflexivity|]. split; [reflexivity|exact HQ'].
      * rewrite Hc. apply IH; assumption.
    + eexists; exists it0. split; [reflexivity|]. split; [reflexivity|exact HQ].
Qed.

Lemma run_loop_keeps (cg : R) (r : fl) :
  0 < cg -> fgt (mean_scalar r) eps_res = true ->
  exists o it, run_loop body (Num cg) r = Ok o /\ lo_last o = Some it /\ Q it.
Proof.
  intros Hcg Hr. unfold run_loop. rewrite loop_step, Hr.
  destruct (body_pos cg Hcg) as [it [Hb [HQ [c' [Hc Hc']]]]].
  rewrite Hb. cbn [bind]. change (Nat.ltb 999 1) with false. cbv iota.
  rewrite Hc. apply loop_keeps; assumption.
Qed.

End LoopLast.

Lemma vfr_body_pass (c : call) (pr : prelude) (cg : fl) (it : iter) :
  vfr_body c pr cg = Ok it -> pass_C_guess it = cg.
Proof.
  unfold vfr_body. intros H.
  repeat match type of H with
  | context [bind ?m _] => destruct m as [[]|]; cbn [bind] in H; try discriminate
  | context [bind ?m _] => destruct m; cbn [bind] in H; try discriminate
  end.
  all: injection H as <-; reflexivity.
Qed.

Lemma vfr_gain_nonneg (b d x rho : R) :
  b * (b * (b * (b * 1))) < 1 -> 0 <= vfr_gain b d x rho.
Proof.
  intros Hb. unfold vfr_gain. apply div_nonneg; [|apply sqrt_lt_R0; lra].
  apply Rmult_le_pos; [|apply sqrt_pos].
  apply Rmult_le_pos; [pose proof PI_RGT_0; lra|]. rewrite Rmult_1_r.
  apply Rle_0_sqr.
Qed.

Lemma eps_closed_ge1 (b p x k : R) :
  0 < p -> 0 <= x -> 0 < k -> 1 <= eps_closed b p (p + x) k.
Proof.
  intros Hp Hx Hk. unfold eps_closed.
  assert (H1 : 1 <= Rpower ((p + x) / p) (1 / k)).
  { apply Rpower_ge1.
    - apply Rmult_le_reg_r with p; [lra|]. unfold Rdiv.
      rewrite Rmult_assoc, Rinv_l by lra. lra.
    - apply div_nonneg; lra. }
  assert (H2 : 0 <= b ^ 4) by (replace (b ^ 4) with ((b * b) * (b * b)) by ring; nra).
  assert (H3 : 0 <= b ^ 8) by (replace (b ^ 8) with ((b ^ 4) * (b ^ 4)) by ring; nra).
  nra.
Qed.

Lemma eps_unc_closed_nonneg (p x k : R) :
  0 < p -> 0 <= x -> 0 < k -> 0 <= eps_unc_closed p (p + x) k.
Proof.
  intros Hp Hx Hk. unfold eps_unc_closed.
  apply div_nonneg; [|lra]. apply div_nonneg; [|lra]. apply div_nonneg; [|lra]. lra.
Qed.

Lemma unit_scale_pos (u : string) (x : R) : 0 < x -> 0 < unit_scale u x.
Proof. intros Hx. unfold unit_scale. destruct (String.eqb u "mm"); lra. Qed.

Lemma vfr_sign_nonneg (x : R) : 0 <= x -> vfr_sign x = 1.
Proof. intros Hx. unfold vfr_sign, Rltb. destruct (Rlt_dec x 0); [lra|reflexivity]. Qed.

Lemma vfr_sign_neg (x : R) : x < 0 -> vfr_sign x = -1.
Proof. intros Hx. unfold vfr_sign, Rltb. destruct (Rlt_dec x 0); [reflexivity|lra]. Qed.

(** C1 (amended): for a non-negative pressure difference, physical inputs
    ([0 < d < D], [p1 > 2300 Pa], [T > 0], [0 <= phi <= 1], [kappa > 0]) and a
    last pass whose [C_err] is non-negative and at most the [C_guess] that
    pass started from, the returned values satisfy
    [qv_min <= qv <= qv_max]. *)
Theorem flow_rate_bounds_ordered (c : call) (pr : prelude) (lo : loop_out) (it : iter)
  (x dd DD p t h k cg e : R) :
  dp c = Num x -> d_orifice c = Num dd -> d_pipe c = Num DD -> p1 c = Num p ->
  T c = Num t -> phi c = Num h -> kappa c = Num k ->
  0 <= x -> 0 < dd < DD -> 2300 < p -> 0 < t -> 0 <= h <= 1 -> 0 < k ->
  cvfr_trace c = Ok (pr, lo) -> lo_last lo = Some it ->
  pass_C_guess it = Num cg -> C_err it = Num e -> 0 <= e <= cg ->
  exists qv qv_min qv_max dp_loss,
    compute_volume_flow_rate c = Ok (Num qv, Num qv_min, Num qv_max, dp_loss) /\
    qv_min <= qv <= qv_max.
Proof.
  intros Hx Hd HD Hp Ht Hh Hk Hx0 Hdd Hp0 Ht0 Hh0 Hk0 Htrace Hlast Hpass Herr He.
  destruct (compute_prelude_closed c x dd DD p t h k Hx Hd HD Hp Ht Hh Hk Hdd Hp0
              ltac:(lra) Ht0 Hh0 ltac:(lra)) as [r [m [Hr [Hm Hpr]]]].
  assert (Htrace' := Htrace).
  unfold cvfr_trace in Htrace'. rewrite Hpr in Htrace'. cbn [bind] in Htrace'.
  destruct (run_loop _ _ _) as [lo'|] eqn:Hrun; cbn [bind] in Htrace'; [|discriminate].
  injection Htrace' as Hpr' Hlo. subst pr lo'.
  unfold run_loop in Hrun.
  destruct (loop_last_from_body _ _ _ _ _ _ _ _ Hrun Hlast) as [Hn|[cg' Hb]];
    [discriminate|].
  rewrite (vfr_body_pass _ _ _ _ Hb) in Hpass. subst cg'.
  set (u := length_unit c) in *.
  assert (Hb0 : 0 < dd / DD < 1).
  { split; [apply Rdiv_lt_0_compat; lra|].
    apply Rmult_lt_reg_r with DD; [lra|]. unfold Rdiv.
    rewrite Rmult_assoc, Rinv_l by lra. lra. }
  pose proof (unit_scale_pos u DD ltac:(lra)) as HD'.
  pose proof (unit_scale_pos u dd ltac:(lra)) as Hd'.
  assert (Ha : 0 < unit_scale u dd ^ 2 / 4 * PI).
  { pose proof PI_RGT_0. apply Rmult_lt_0_compat; [|lra].
    apply Rdiv_lt_0_compat; [|lra]. apply pow_lt. exact Hd'. }
  assert (Hn : 0 < m / r) by (apply Rdiv_lt_0_compat; lra).
  destruct (vfr_body_closed c
              (mkPrelude (Num (dd / DD)) (Num (unit_scale u dd)) (Num (unit_scale u DD))
                 (Num (unit_scale u dd ^ 2 / 4 * PI)) (Num (T_kelvin t)) (Num r) (Num m)
                 (Num (m / r)) (Num (p + x)) (Num (eps_closed (dd / DD) p (p + x) k))
                 (Num (eps_unc_closed p (p + x) k)))
              cg (dd / DD) (unit_scale u dd) (unit_scale u DD)
              (unit_scale u dd ^ 2 / 4 * PI) r (m / r)
              (eps_closed (dd / DD) p (p + x) k) (eps_unc_closed p (p + x) k) x
              eq_refl eq_refl eq_refl eq_refl eq_refl eq_refl eq_refl eq_refl Hx
              Hb0 HD' ltac:(lra) ltac:(lra) Hr) as [C0 [e0 [_ [_ Hbody]]]].
  rewrite Hbody in Hb. injection Hb as Hit. subst it.
  cbn [C_err] in Herr. injection Herr as ->.
  unfold compute_volume_flow_rate, cvfr_trace. rewrite Hpr. cbn [bind].
  unfold run_loop. rewrite Hrun. cbn [bind fst snd]. unfold finish. rewrite Hlast.
  cbn [vfr_value vfr_value_min vfr_value_max].
  eexists; eexists; eexists; eexists. split; [reflexivity|].
  rewrite vfr_sign_nonneg by exact Hx0.
  pose proof (vfr_gain_nonneg (dd / DD) (unit_scale u dd) x r (b4_lt1 _ Hb0)) as HG.
  pose proof (eps_closed_ge1 (dd / DD) p x k ltac:(lra) Hx0 Hk0) as Hep.
  pose proof (eps_unc_closed_nonneg p x k ltac:(lra) Hx0 Hk0) as Hu.
  set (G := vfr_gain (dd / DD) (unit_scale u dd) x r) in *.
  set (ep := eps_closed (dd / DD) p (p + x) k) in *.
  set (uu := eps_unc_closed p (p + x) k) in *.
  assert (H1 : 0 <= G * ((cg - e) * uu + e * ep)) by (apply Rmult_le_pos; nra).
  assert (H2 : 0 <= G * (cg * uu + e * ep + e * uu)) by (apply Rmult_le_pos; nra).
  split; nra.
Qed.

(** ** Negative Reynolds numbers *)

Lemma is_integral_frac (y : R) : 0 < y < 1 -> is_integral y = false.
Proof.
  intros Hy. unfold is_integral.
  rewrite <- (tech_up y 1) by (simpl; lra). simpl.
  destruct (Req_dec_T (1 - 1) y); [lra|reflexivity].
Qed.

Lemma npow_neg_frac (a y : R) : a < 0 -> 0 < y < 1 -> npow (Num a) (Num y) = NaN.
Proof.
  intros Ha Hy. unfold npow. rewrite is_integral_frac by exact Hy.
  destruct (Rlt_dec 0 a); [lra|]. destruct (Req_dec_T a 0); [lra|]. reflexivity.
Qed.

(** With a negative Reynolds number the fractional powers of NumPy are NaN,
    and so is [C]. *)
Lemma flow_coefficient_C_neg_Re (b D Re : R) :
  0 < b < 1 -> 0 < D -> Re < 0 -> flow_coefficient_C (Num b) (Num D) (Num Re) = Ok NaN.
Proof.
  intros Hb HD HRe. unfold flow_coefficient_C.
  assert (H1 : 19000 * b / Re < 0).
  { unfold Rdiv. apply Rmult_pos_neg; [nra|apply Rinv_lt_0_compat; exact HRe]. }
  assert (H2 : 10 ^ 6 * b / Re < 0).
  { unfold Rdiv. apply Rmult_pos_neg; [|apply Rinv_lt_0_compat; exact HRe].
    apply Rmult_lt_0_compat; [apply pow_lt; lra|lra]. }
  assert (H3 : 10 ^ 6 / Re < 0).
  { unfold Rdiv. apply Rmult_pos_neg; [apply pow_lt; lra|].
    apply Rinv_lt_0_compat; exact HRe. }
  pose proof (b4_lt1 b Hb).
  assert (HM : 0 < 2 * (25.4 / 1000 / D) / (1 - b)).
  { apply Rdiv_lt_0_compat; [|lra]. apply Rmult_lt_0_compat; [lra|].
    apply Rdiv_lt_0_compat; lra. }
  unfold pdiv, ppow, npow. fl_unfold. decide_R.
  all: rewrite ?(is_integral_frac 0.7), ?(is_integral_frac 0.8), ?(is_integral_frac 0.3)
    by (split; lra); reflexivity.
Qed.

Lemma unc_095 (Re : R) : flow_coefficient_uncertainty (Num 0.95) (Num 1) (Num Re) = Num 0.
Proof. unfold flow_coefficient_uncertainty. fl_unfold. decide_R. Qed.

(** ** Calls with [beta = 0.95] and [D = 1 m] *)

Lemma call095_prelude (x cg0 : R) :
  -100000 < x ->
  exists r m, 0 < r /\ 0 < m /\ compute_prelude (call095 x cg0) = Ok (pr095 x r m).
Proof.
  intros Hx.
  destruct (compute_prelude_closed (call095 x cg0) x 0.95 1 100000 293.15 0 1.4
              eq_refl eq_refl eq_refl eq_refl eq_refl eq_refl eq_refl
              ltac:(lra) ltac:(lra) ltac:(lra) ltac:(lra) ltac:(lra) ltac:(lra))
    as [r [m [Hr [Hm H]]]].
  exists r, m. split; [exact Hr|]. split; [exact Hm|].
  rewrite H. replace (0.95 / 1) with 0.95 by lra. reflexivity.
Qed.

Lemma call095_body (x cg0 r m cg : R) :
  0 < r -> 0 < m ->
  exists C0,
    vfr_body (call095 x cg0) (pr095 x r m) (Num cg) =
    Ok (mkIter (Num cg)
          (Num (vfr_sign x * (cg * eps_closed 0.95 100000 (100000 + x) 1.4)
                * vfr_gain 0.95 0.95 x r))
          (Num (Re095 x r m cg)) C0 (Num 0)
          (Num (vfr_sign x * ((cg + 0) * (eps_closed 0.95 100000 (100000 + x) 1.4
                                         + eps_unc_closed 100000 (100000 + x) 1.4))
                * vfr_gain 0.95 0.95 x r))
          (Num (vfr_sign x * ((cg - 0) * (eps_closed 0.95 100000 (100000 + x) 1.4
                                         - eps_unc_closed 100000 (100000 + x) 1.4))
                * vfr_gain 0.95 0.95 x r))) /\
    (0 < Re095 x r m cg -> exists c', C0 = Num c' /\ 0 < c') /\
    (Re095 x r m cg < 0 -> C0 = NaN).
Proof.
  intros Hr Hm.
  assert (Ha : 0 < 0.95 ^ 2 / 4 * PI) by (pose proof PI_RGT_0; simpl; nra).
  assert (Hn : 0 < m / r) by (apply Rdiv_lt_0_compat; lra).
  destruct (vfr_body_closed (call095 x cg0) (pr095 x r m) cg 0.95 0.95 1
              (0.95 ^ 2 / 4 * PI) r (m / r) (eps_closed 0.95 100000 (100000 + x) 1.4)
              (eps_unc_closed 100000 (100000 + x) 1.4) x
              eq_refl eq_refl eq_refl eq_refl eq_refl eq_refl eq_refl eq_refl eq_refl
              ltac:(lra) ltac:(lra) ltac:(lra) ltac:(lra) Hr)
    as [C0 [e [HC [Hunc Hb]]]].
  fold (Re095 x r m cg) in HC, Hunc, Hb.
  rewrite unc_095 in Hunc. injection Hunc as <-.
  exists C0. split; [exact Hb|]. split.
  - intros HRe. destruct (C_pos_095 _ HRe) as [c' [Hc' Hpos]].
    rewrite Hc' in HC. injection HC as <-. exists c'. split; [reflexivity|exact Hpos].
  - intros HRe. rewrite (flow_coefficient_C_neg_Re 0.95 1 _ ltac:(lra) ltac:(lra) HRe) in HC.
    injection HC as <-. reflexivity.
Qed.

Lemma Re095_sign (x r m cg : R) :
  x <> 0 -> 0 < r -> 0 < m ->
  (0 < vfr_sign x * (cg * eps_closed 0.95 100000 (100000 + x) 1.4) -> 0 < Re095 x r m cg) /\
  (vfr_sign x * (cg * eps_closed 0.95 100000 (100000 + x) 1.4) < 0 -> Re095 x r m cg < 0).
Proof.
  intros Hx Hr Hm.
  pose proof (vfr_gain_pos 0.95 0.95 x r Hr ltac:(lra) ltac:(lra) Hx) as HG.
  assert (Ha : 0 < 0.95 ^ 2 / 4 * PI) by (pose proof PI_RGT_0; simpl; nra).
  assert (Hn : 0 < m / r) by (apply Rdiv_lt_0_compat; lra).
  assert (Hk : 0 < / (0.95 ^ 2 / 4 * PI) * 1 * / (m / r)).
  { rewrite Rmult_1_r. apply Rmult_lt_0_compat; apply Rinv_0_lt_compat; assumption. }
  unfold Re095.
  set (S := vfr_sign x * (cg * eps_closed 0.95 100000 (100000 + x) 1.4)).
  set (K := / (0.95 ^ 2 / 4 * PI) * 1 * / (m / r)) in Hk.
  replace (S * vfr_gain 0.95 0.95 x r / (0.95 ^ 2 / 4 * PI) * 1 / (m / r))
    with (S * (vfr_gain 0.95 0.95 x r * K)) by (unfold K, Rdiv; ring).
  assert (HGK : 0 < vfr_gain 0.95 0.95 x r * K) by (apply Rmult_lt_0_compat; assumption).
  split; intros HS; nra.
Qed.

(** Starting from a positive guess, every pass of a call whose flow has the
    sign of [vfr_sign x * eps] gives a positive flow rate and a positive [C]. *)
Lemma call095_run (x : R) :
  x <> 0 -> -100000 < x ->
  0 < vfr_sign x * eps_closed 0.95 100000 (100000 + x) 1.4 ->
  exists pr lo it cg v vmin vmax,
    cvfr_trace (call095 x 0.62) = Ok (pr, lo) /\ lo_last lo = Some it /\
    pass_C_guess it = Num cg /\ 0 < cg /\ vfr_value it = Num v /\ 0 < v /\
    C_err it = Num 0 /\ vfr_value_min it = Num vmin /\ vfr_value_max it = Num vmax.
Proof.
  intros Hx Hx1 Hse.
  destruct (call095_prelude x 0.62 Hx1) as [r [m [Hr [Hm Hpr]]]].
  set (Q := fun it : iter => exists cg v vmin vmax,
    pass_C_guess it = Num cg /\ 0 < cg /\ vfr_value it = Num v /\ 0 < v /\
    C_err it = Num 0 /\ vfr_value_min it = Num vmin /\ vfr_value_max it = Num vmax).
  assert (Hbody : forall cg, 0 < cg ->
    exists it, vfr_body (call095 x 0.62) (pr095 x r m) (Num cg) = Ok it /\ Q it /\
      exists c', C it = Num c' /\ 0 < c').
  { intros cg Hcg.
    destruct (call095_body x 0.62 r m cg Hr Hm) as [C0 [Hb [Hpos _]]].
    assert (HS : 0 < vfr_sign x * (cg * eps_closed 0.95 100000 (100000 + x) 1.4)).
    { replace (vfr_sign x * (cg * eps_closed 0.95 100000 (100000 + x) 1.4))
        with (cg * (vfr_sign x * eps_closed 0.95 100000 (100000 + x) 1.4)) by ring.
      apply Rmult_lt_0_compat; assumption. }
    destruct (Hpos (proj1 (Re095_sign x r m cg Hx Hr Hm) HS)) as [c' [-> Hc']].
    eexists. split; [exact Hb|]. split.
    - do 4 eexists. split; [reflexivity|]. split; [exact Hcg|].
      split; [reflexivity|]. split.
      + pose proof (vfr_gain_pos 0.95 0.95 x r Hr ltac:(lra) ltac:(lra) Hx).
        apply Rmult_lt_0_compat; assumption.
      + split; [reflexivity|]. split; reflexivity.
    - exists c'. split; [reflexivity|exact Hc']. }
  assert (Hseed : fgt (mean_scalar (Num 0.1)) eps_res = true).
  { unfold eps_res. fl_unfold. decide_R. }
  destruct (run_loop_keeps _ Q Hbody 0.62 (Num 0.1) ltac:(lra) Hseed)
    as [o [it [Hrun [Hlast HQ]]]].
  destruct HQ as [cg [v [vmin [vmax HQ]]]].
  exists (pr095 x r m), o, it, cg, v, vmin, vmax. split.
  - unfold cvfr_trace. rewrite Hpr. cbn [bind]. cbn [C_guess residuum call095].
    rewrite Hrun. reflexivity.
  - split; [exact Hlast|exact HQ].
Qed.

Lemma eps_sign_095_pos : 0 < vfr_sign 99000 * eps_closed 0.95 100000 (100000 + 99000) 1.4.
Proof.
  rewrite vfr_sign_nonneg by lra.
  pose proof (eps_closed_ge1 0.95 100000 99000 1.4 ltac:(lra) ltac:(lra) ltac:(lra)). lra.
Qed.

Lemma eps_sign_095_neg :
  0 < vfr_sign (-99000) * eps_closed 0.95 100000 (100000 + -99000) 1.4.
Proof.
  rewrite vfr_sign_neg by lra. unfold eps_closed.
  replace ((100000 + -99000) / 100000) with 0.01 by lra.
  pose proof Rpower_001. pose proof (Rpower_pos 0.01 (1 / 1.4)). simpl. nra.
Qed.

Lemma iteration_capped_at_1000_witness :
  exists pr lo, cvfr_trace (call095 99000 0.62) = Ok (pr, lo) /\ lo_last lo <> None /\
    (lo_j lo <= 1000)%nat /\
    (fgt (lo_residuum lo) eps_res = true ->
     lo_j lo = 1000%nat /\ lo_capped lo = true /\
     exists out, compute_volume_flow_rate (call095 99000 0.62) = Ok out).
Proof.
  destruct (call095_run 99000 ltac:(lra) ltac:(lra) eps_sign_095_pos)
    as (pr & lo & it & _ & _ & _ & _ & H & Hlast & _).
  exists pr, lo. split; [exact H|]. split; [rewrite Hlast; discriminate|].
  exact (iteration_capped_at_1000 (call095 99000 0.62) pr lo H).
Defined.

(** [compute_volume_flow_rate] started from [C_guess = -0.62]: one pass,
    after which [C] is NaN and the loop stops. *)
Lemma call095_neg_guess_trace :
  exists r m it,
    0 < r /\ 0 < m /\
    cvfr_trace (call095 99000 (-0.62)) =
      Ok (pr095 99000 r m, mkLoopOut NaN NaN 1 (Some it) false) /\
    vfr_body (call095 99000 (-0.62)) (pr095 99000 r m) (Num (-0.62)) = Ok it /\
    C it = NaN.
Proof.
  destruct (call095_prelude 99000 (-0.62) ltac:(lra)) as [r [m [Hr [Hm Hpr]]]].
  destruct (call095_body 99000 (-0.62) r m (-0.62) Hr Hm) as [C0 [Hb [_ Hneg]]].
  assert (HRe : Re095 99000 r m (-0.62) < 0).
  { apply (proj2 (Re095_sign 99000 r m (-0.62) ltac:(lra) Hr Hm)).
    pose proof eps_sign_095_pos. nra. }
  rewrite (Hneg HRe) in Hb.
  eexists r, m, _. split; [exact Hr|]. split; [exact Hm|]. split; [|split; [exact Hb|reflexivity]].
  unfold cvfr_trace. rewrite Hpr. cbn [bind C_guess residuum call095].
  unfold run_loop. rewrite loop_step.
  assert (Hseed : fgt (mean_scalar (Num 0.1)) eps_res = true).
  { unfold eps_res. fl_unfold. decide_R. }
  rewrite Hseed, Hb. cbn [bind C]. change (Nat.ltb 999 1) with false. cbv iota.
  rewrite loop_step. reflexivity.
Qed.

(** C1 (counterexample): [compute_volume_flow_rate(dp=99000, d_orifice=0.95,
    d_pipe=1, length_unit='m', p1=1e5, T=293.15, C_guess=-0.62)]. The only
    pass has [C_err = 0] and the run has [eps_uncertainty >= 0], yet the
    returned [qv_max] is below [qv]. *)
Lemma bounds_violated_negative_guess :
  exists pr lo it u qv qv_min qv_max dp_loss,
    cvfr_trace (call095 99000 (-0.62)) = Ok (pr, lo) /\ lo_last lo = Some it /\
    C_err it = Num 0 /\ eps_uncertainty pr = Num u /\ 0 <= u /\
    compute_volume_flow_rate (call095 99000 (-0.62)) =
      Ok (Num qv, Num qv_min, Num qv_max, dp_loss) /\
    qv_max < qv.
Proof.
  destruct call095_neg_guess_trace as [r [m [it [Hr [Hm [Htr [Hb _]]]]]]].
  destruct (call095_body 99000 (-0.62) r m (-0.62) Hr Hm) as [C0 [Hb' _]].
  rewrite Hb' in Hb. injection Hb as Hit. subst it.
  do 2 eexists. eexists (mkIter _ _ _ _ _ _ _).
  exists (eps_unc_closed 100000 (100000 + 99000) 1.4).
  do 4 eexists.
  split; [exact Htr|]. split; [reflexivity|]. split; [reflexivity|]. split; [reflexivity|].
  pose proof (eps_unc_closed_nonneg 100000 99000 1.4 ltac:(lra) ltac:(lra) ltac:(lra)).
  split; [assumption|].
  split.
  - unfold compute_volume_flow_rate. rewrite Htr. cbn [bind fst snd].
    unfold finish. cbn [lo_last vfr_value vfr_value_min vfr_value_max]. reflexivity.
  - rewrite vfr_sign_nonneg by lra.
    pose proof (vfr_gain_pos 0.95 0.95 99000 r Hr ltac:(lra) ltac:(lra) ltac:(lra)).
    pose proof (eps_closed_ge1 0.95 100000 99000 1.4 ltac:(lra) ltac:(lra) ltac:(lra)).
    assert (Hu : 0 < eps_unc_closed 100000 (100000 + 99000) 1.4).
    { unfold eps_unc_closed. apply Rdiv_lt_0_compat; [|lra].
      apply Rdiv_lt_0_compat; [|lra]. apply Rdiv_lt_0_compat; lra. }
    set (G := vfr_gain 0.95 0.95 99000 r) in *.
    set (ep := eps_closed 0.95 100000 (100000 + 99000) 1.4) in *.
    set (u := eps_unc_closed 100000 (100000 + 99000) 1.4) in *.
    assert (0 < u * G) by (apply Rmult_lt_0_compat; assumption).
    nra.
Qed.

Lemma flow_rate_bounds_ordered_witness :
  exists qv qv_min qv_max dp_loss,
    compute_volume_flow_rate (call095 99000 0.62) =
      Ok (Num qv, Num qv_min, Num qv_max, dp_loss) /\
    qv_min <= qv <= qv_max.
Proof.
  destruct (call095_run 99000 ltac:(lra) ltac:(lra) eps_sign_095_pos)
    as [pr [lo [it [cg [v [vmin [vmax [Htr [Hlast [Hpass [Hcg [_ [_ [Herr _]]]]]]]]]]]]]].
  apply (flow_rate_bounds_ordered (call095 99000 0.62) pr lo it
           99000 0.95 1 100000 293.15 0 1.4 cg 0);
    try reflexivity; try lra; assumption.
Defined.

(** C2 (counterexample): with [beta = 0.95], [p1 = 1e5] and [dp = -99000]
    the expansion number computed from [p2 = p1 + dp] is negative, so the
    returned [qv] is positive, as it is for [dp = |dp| = 99000]; the two
    flow rates are not opposite. *)
Lemma sign_law_fails_095 :
  exists qn mn xn ln qp mp xp lp,
    compute_volume_flow_rate (call095 (-99000) 0.62) = Ok (Num qn, mn, xn, ln) /\
    compute_volume_flow_rate (call095 (Rabs (-99000)) 0.62) = Ok (Num qp, mp, xp, lp) /\
    0 < qn /\ 0 < qp /\ qn <> - qp.
Proof.
  destruct (call095_run (-99000) ltac:(lra) ltac:(lra) eps_sign_095_neg)
    as [pr [lo [it [cg [v [vmin [vmax [Htr [Hlast [_ [_ [Hv [Hv0 _]]]]]]]]]]]]].
  rewrite Rabs_left by lra. replace (- -99000) with 99000 by lra.
  destruct (call095_run 99000 ltac:(lra) ltac:(lra) eps_sign_095_pos)
    as [pr' [lo' [it' [cg' [v' [vmin' [vmax' [Htr' [Hlast' [_ [_ [Hv' [Hv0' _]]]]]]]]]]]]].
  do 4 eexists. exists v'. do 3 eexists.
  split; [|split; [|split; [exact Hv0|split; [exact Hv0'|lra]]]].
  - unfold compute_volume_flow_rate. rewrite Htr. cbn [bind fst snd].
    unfold finish. rewrite Hlast, Hv. reflexivity.
  - unfold compute_volume_flow_rate. rewrite Htr'. cbn [bind fst snd].
    unfold finish. rewrite Hlast', Hv'. reflexivity.
Qed.

(** C2 (amended): the sign law holds for the flow formula [_vfr] with the
    flow coefficient guess, [beta], [d], [eps] and [rho > 0] held fixed: at
    [dp < 0] it returns exactly the negation of its value at [|dp|]. *)
Theorem vfr_sign_law (c0 b d e x rho : R) :
  x < 0 -> 0 < rho -> b ^ 4 < 1 ->
  exists q,
    _vfr (Num c0) (Num b) (Num d) (Num e) (Num (Rabs x)) (Num rho) = Ok (Num q) /\
    _vfr (Num c0) (Num b) (Num d) (Num e) (Num x) (Num rho) = Ok (Num (- q)).
Proof.
  intros Hx Hr Hb. assert (Hb' : b * (b * (b * (b * 1))) < 1) by (simpl in Hb; exact Hb).
  rewrite !vfr_closed_form by assumption.
  rewrite vfr_sign_nonneg by (apply Rabs_pos). rewrite vfr_sign_neg by exact Hx.
  unfold vfr_gain. rewrite Rabs_Rabsolu.
  eexists. split; [reflexivity|]. f_equal. f_equal. ring.
Qed.

Lemma vfr_sign_law_witness :
  -5000 < 0 /\ 0 < 1.2 /\ 0.5 ^ 4 < 1 /\
  exists q,
    _vfr (Num 0.6) (Num 0.5) (Num 0.05) (Num 0.99) (Num (Rabs (-5000))) (Num 1.2) = Ok (Num q) /\
    _vfr (Num 0.6) (Num 0.5) (Num 0.05) (Num 0.99) (Num (-5000)) (Num 1.2) = Ok (Num (- q)).
Proof.
  split; [lra|]. split; [lra|]. split; [simpl; lra|].
  apply vfr_sign_law; [lra|lra|simpl; lra].
Defined.

(** * Further properties of [core.py] *)

(** ** Temperature conversion and gas properties *)

Lemma compute_density_closed (p t h pv : R) :
  p <> 0 -> t <> 0 -> 1 - h * pv / p * (1 - Rs / Rd) <> 0 ->
  compute_density (Num p) (Num t) (Num h) (Num pv)
  = Ok (Num ((p - h * pv * (1 - Rs / Rd)) / (Rs * t))).
Proof.
  intros Hp Ht Hd. unfold compute_density, pdiv. fl_unfold.
  unfold Rs, Rd in *.
  destruct (Req_dec_T 461.523 0) as [|_]; [lra|].
  destruct (Req_dec_T p 0) as [|_]; [contradiction|]. simpl.
  destruct (Req_dec_T (1 - h * pv / p * (1 - 287.058 / 461.523)) 0) as [|_];
    [contradiction|]. simpl.
  destruct (Req_dec_T (287.058 / (1 - h * pv / p * (1 - 287.058 / 461.523)) * t) 0)
    as [He|_].
  { exfalso. apply Rmult_integral in He as [He|He]; [|contradiction].
    unfold Rdiv in He. apply Rmult_integral in He as [He|He]; [lra|].
    apply (Rinv_neq_0_compat _ Hd). exact He. }
  assert (Hd' : p * 461.523 - h * pv * (461.523 - 287.058) <> 0).
  { intros E. apply Hd.
    replace (1 - h * pv / p * (1 - 287.058 / 461.523))
      with ((p * 461.523 - h * pv * (461.523 - 287.058)) / (p * 461.523)) by (field; lra).
    rewrite E. unfold Rdiv. ring. }
  f_equal. f_equal. field.
  repeat split; first [exact Hd' | exact Ht | exact Hp | lra].
Qed.

(** Dry air ([phi = 0]): [compute_density] is the ideal gas law
    [rho = p / (Rs T)]. *)
Theorem compute_density_dry_air (p t pv : R) :
  p <> 0 -> t <> 0 ->
  compute_density (Num p) (Num t) (Num 0) (Num pv) = Ok (Num (p / (Rs * t))).
Proof.
  intros Hp Ht.
  assert (H1 : 1 - 0 * pv / p * (1 - Rs / Rd) <> 0).
  { replace (1 - 0 * pv / p * (1 - Rs / Rd)) with 1 by (unfold Rdiv; ring). lra. }
  rewrite compute_density_closed by assumption.
  f_equal. f_equal. unfold Rs, Rd. field. repeat split; try assumption; lra.
Qed.

Lemma compute_density_dry_air_witness :
  101325 <> 0 /\ 293.15 <> 0 /\
  compute_density (Num 101325) (Num 293.15) (Num 0) (Num VAPOR_PRESSURE)
  = Ok (Num (101325 / (Rs * 293.15))).
Proof.
  split; [lra|]. split; [lra|]. apply compute_density_dry_air; lra.
Defined.

(** Humid air is lighter: for [0 < pv < p] and [T > 0], a higher relative
    humidity gives a strictly lower density. *)
Theorem compute_density_decreasing_in_humidity (p t pv h1 h2 : R) :
  0 < pv < p -> 0 < t -> 0 <= h1 < h2 -> h2 <= 1 ->
  exists r1 r2,
    compute_density (Num p) (Num t) (Num h1) (Num pv) = Ok (Num r1) /\
    compute_density (Num p) (Num t) (Num h2) (Num pv) = Ok (Num r2) /\
    0 < r2 < r1.
Proof.
  intros Hpv Ht Hh Hh2.
  assert (Hk : 0 < 1 - Rs / Rd < 1) by (unfold Rs, Rd; lra).
  assert (Hq : forall h, 0 <= h <= 1 -> 0 <= h * pv / p <= 1).
  { intros h Hh'. split.
    - apply div_nonneg; nra.
    - apply Rmult_le_reg_r with p; [lra|]. unfold Rdiv.
      rewrite Rmult_assoc, Rinv_l by lra. nra. }
  assert (Hden : forall h, 0 <= h <= 1 -> 1 - h * pv / p * (1 - Rs / Rd) <> 0).
  { intros h Hh'. pose proof (Hq h Hh'). nra. }
  exists ((p - h1 * pv * (1 - Rs / Rd)) / (Rs * t)),
         ((p - h2 * pv * (1 - Rs / Rd)) / (Rs * t)).
  split; [apply compute_density_closed; [lra|lra|apply Hden; lra]|].
  split; [apply compute_density_closed; [lra|lra|apply Hden; lra]|].
  assert (HR : 0 < Rs * t) by (unfold Rs; lra).
  set (k := 1 - Rs / Rd) in *.
  assert (H1 : 0 <= h2 * pv <= pv) by nra.
  assert (H2 : h2 * pv * k <= h2 * pv) by nra.
  assert (H3 : h1 * pv * k < h2 * pv * k).
  { apply Rmult_lt_compat_r; [lra|]. apply Rmult_lt_compat_r; lra. }
  split.
  - apply Rdiv_lt_0_compat; [lra|exact HR].
  - unfold Rdiv. apply Rmult_lt_compat_r; [apply Rinv_0_lt_compat; exact HR|]. lra.
Qed.

Lemma compute_density_decreasing_in_humidity_witness :
  0 < VAPOR_PRESSURE < 101325 /\ 0 < 293.15 /\ 0 <= 0.2 < 0.8 /\ 0.8 <= 1 /\
  exists r1 r2,
    compute_density (Num 101325) (Num 293.15) (Num 0.2) (Num VAPOR_PRESSURE) = Ok (Num r1) /\
    compute_density (Num 101325) (Num 293.15) (Num 0.8) (Num VAPOR_PRESSURE) = Ok (Num r2) /\
    0 < r2 < r1.
Proof.
  unfold VAPOR_PRESSURE. split; [lra|]. split; [lra|]. split; [lra|]. split; [lra|].
  apply compute_density_decreasing_in_humidity; lra.
Defined.

(** A zero pressure makes [compute_density] raise [ZeroDivisionError] in
    [phi * pv / p], whatever the other arguments. *)
Theorem compute_density_zero_pressure (t h pv : fl) :
  compute_density (Num 0) t h pv = Err ZeroDivisionError.
Proof.
  unfold compute_density, pdiv. destruct (Req_dec_T 0 0); [reflexivity|contradiction].
Qed.

(** The viscosity of [compute_mu_air] (Sutherland's law) is positive and
    strictly increasing in the temperature for [T > 0]. *)
Theorem compute_mu_air_increasing (t1 t2 : R) :
  0 < t1 < t2 ->
  exists m1 m2,
    compute_mu_air (Num t1) = Ok (Num m1) /\ compute_mu_air (Num t2) = Ok (Num m2) /\
    0 < m1 < m2.
Proof.
  intros Ht.
  assert (Hc : forall t, 0 < t ->
    compute_mu_air (Num t) = Ok (Num (1.458e-6 * Rpower t 1.5 / (t + 110.4)))).
  { intros t Ht0. unfold compute_mu_air, ppow, pdiv. fl_unfold.
    destruct (Rlt_dec 0 t) as [_|]; [|lra]. simpl.
    destruct (Req_dec_T (t + 110.4) 0) as [|_]; [lra|]. reflexivity. }
  eexists; eexists. split; [apply Hc; lra|]. split; [apply Hc; lra|].
  assert (Hs : forall t, 0 < t -> Rpower t 1.5 = Rpower t 0.5 * t).
  { intros t Ht0. replace 1.5 with (0.5 + 1) by lra.
    rewrite Rpower_plus, Rpower_1 by exact Ht0. reflexivity. }
  rewrite !Hs by lra.
  assert (H5 : Rpower t1 0.5 < Rpower t2 0.5) by (apply Rlt_Rpower_l; lra).
  pose proof (Rpower_pos t1 0.5).
  assert (Hf : t1 / (t1 + 110.4) < t2 / (t2 + 110.4)).
  { assert (0 < t2 / (t2 + 110.4) - t1 / (t1 + 110.4)); [|lra].
    replace (t2 / (t2 + 110.4) - t1 / (t1 + 110.4))
      with (110.4 * (t2 - t1) / ((t1 + 110.4) * (t2 + 110.4))) by (field; lra).
    apply Rdiv_lt_0_compat; nra. }
  assert (Hf0 : 0 < t1 / (t1 + 110.4)) by (apply Rdiv_lt_0_compat; lra).
  replace (1.458e-6 * (Rpower t1 0.5 * t1) / (t1 + 110.4))
    with (1.458e-6 * (Rpower t1 0.5 * (t1 / (t1 + 110.4)))) by (field; lra).
  replace (1.458e-6 * (Rpower t2 0.5 * t2) / (t2 + 110.4))
    with (1.458e-6 * (Rpower t2 0.5 * (t2 / (t2 + 110.4)))) by (field; lra).
  split; [nra|].
  apply Rmult_lt_compat_l; [lra|]. nra.
Qed.

Lemma compute_mu_air_increasing_witness :
  0 < 273.15 < 373.15 /\
  exists m1 m2,
    compute_mu_air (Num 273.15) = Ok (Num m1) /\ compute_mu_air (Num 373.15) = Ok (Num m2) /\
    0 < m1 < m2.
Proof. split; [lra|]. apply compute_mu_air_increasing. lra. Defined.

(** ** Advisories of [compute_beta] *)

(** For [0 < d < D] and flange mounting, [compute_beta] returns [d / D] with
    at most one advisory. The orifice warning is emitted exactly when [d] in
    millimetres is at most 12.5. No warning is emitted exactly when the ISO
    5167 ranges hold: [d > 12.5 mm], [50 mm <= D <= 1000 mm] and
    [0.1 <= beta <= 0.75]. *)
Theorem compute_beta_advisories (x y : R) (u : string) :
  0 < x < y ->
  exists w, compute_beta (Num x) (Num y) u "flange" = Ok (Num (x / y), w) /\
    (w = [WOrificeSmall] <-> mm_scale u x <= 12.5) /\
    (w = [] <-> 12.5 < mm_scale u x /\ 50 <= mm_scale u y <= 1000 /\ 0.1 <= x / y <= 0.75) /\
    (length w <= 1)%nat.
Proof.
  intros Hxy. unfold compute_beta, pdiv, mm_scale. fl_unfold.
  destruct (String.eqb u "m"); decide_R;
    eexists; (split; [reflexivity|]);
    repeat (split || intro); try discriminate; try reflexivity; try lra; simpl; try lia.
Qed.

Lemma compute_beta_advisories_witness :
  0 < 50 < 100 /\
  exists w, compute_beta (Num 50) (Num 100) "mm" "flange" = Ok (Num (50 / 100), w) /\
    (w = [WOrificeSmall] <-> mm_scale "mm" 50 <= 12.5) /\
    (w = [] <-> 12.5 < mm_scale "mm" 50 /\ 50 <= mm_scale "mm" 100 <= 1000 /\
                0.1 <= 50 / 100 <= 0.75) /\
    (length w <= 1)%nat.
Proof. split; [lra|]. apply (compute_beta_advisories 50 100 "mm"). lra. Defined.

(** ** Expansion number *)

Lemma Rpower_cmp1 (r y : R) :
  0 < r -> 0 < y ->
  (1 < r -> 1 < Rpower r y) /\ (r < 1 -> Rpower r y < 1) /\ (r = 1 -> Rpower r y = 1).
Proof.
  intros Hr Hy. unfold Rpower. repeat split; intros H.
  - rewrite <- exp_0. apply exp_increasing.
    assert (ln 1 < ln r) by (apply ln_increasing; lra). rewrite ln_1 in *.
    apply Rmult_lt_0_compat; lra.
  - rewrite <- exp_0. apply exp_increasing.
    assert (ln r < ln 1) by (apply ln_increasing; lra). rewrite ln_1 in *.
    assert (0 < y * - ln r) by (apply Rmult_lt_0_compat; lra). lra.
  - subst r. rewrite ln_1, Rmult_0_r. apply exp_0.
Qed.

Lemma eps_closed_cmp (b p x k : R) :
  0 < p -> 0 < p + x -> 0 < k ->
  (0 < x -> 1 < eps_closed b p (p + x) k) /\ (x < 0 -> eps_closed b p (p + x) k < 1) /\
  (x = 0 -> eps_closed b p (p + x) k = 1).
Proof.
  intros Hp Hpx Hk. unfold eps_closed.
  assert (Hy : 0 < 1 / k) by (apply Rdiv_lt_0_compat; lra).
  assert (Hr : 0 < (p + x) / p) by (apply Rdiv_lt_0_compat; lra).
  destruct (Rpower_cmp1 ((p + x) / p) (1 / k) Hr Hy) as [Hgt [Hlt Heq]].
  assert (H2 : 0 <= b ^ 4) by (replace (b ^ 4) with ((b * b) * (b * b)) by ring; nra).
  assert (H3 : 0 <= b ^ 8) by (replace (b ^ 8) with ((b ^ 4) * (b ^ 4)) by ring; nra).
  assert (Hq : (p + x) / p = 1 + x / p) by (field; lra).
  repeat split; intros Hx.
  - assert (0 < x / p) by (apply Rdiv_lt_0_compat; lra).
    assert (1 < Rpower ((p + x) / p) (1 / k)) by (apply Hgt; lra). nra.
  - assert (x / p < 0) by (unfold Rdiv; apply Rmult_neg_pos; [lra|apply Rinv_0_lt_compat; lra]).
    assert (Rpower ((p + x) / p) (1 / k) < 1) by (apply Hlt; lra). nra.
  - subst x. rewrite Heq by (field; lra). ring.
Qed.

(** [compute_expansion_number] divides by [p1] and by [kappa] as Python
    floats: a zero [p1] raises [ZeroDivisionError] whatever the other
    arguments, and so does a zero [kappa] with a nonzero [p1]. *)
Theorem compute_expansion_number_zero_division (beta p2 kappa : fl) (p : R) :
  p <> 0 ->
  compute_expansion_number beta (Num 0) p2 kappa = Err ZeroDivisionError /\
  compute_expansion_number beta (Num p) p2 (Num 0) = Err ZeroDivisionError.
Proof.
  intros Hp. unfold compute_expansion_number, pdiv. split.
  - destruct (Req_dec_T 0 0) as [_|]; [reflexivity|lra].
  - destruct (Req_dec_T p 0) as [|_]; [lra|]. cbn [bind].
    destruct (Req_dec_T 0 0) as [_|]; [reflexivity|lra].
Qed.

(** For positive pressures and a positive [kappa], [eps] is above, equal to
    or below 1 and [rel_uncertainty] is positive, zero or negative, as [p2]
    is above, equal to or below [p1]. *)
Theorem compute_expansion_number_sign (b p p2 k : R) :
  0 < p -> 0 < p2 -> 0 < k ->
  exists e u, compute_expansion_number (Num b) (Num p) (Num p2) (Num k) = Ok (Num e, Num u) /\
    (p < p2 -> 1 < e /\ 0 < u) /\ (p2 < p -> e < 1 /\ u < 0) /\ (p2 = p -> e = 1 /\ u = 0).
Proof.
  intros Hp Hp2 Hk.
  exists (eps_closed b p p2 k), (eps_unc_closed p p2 k).
  split; [apply compute_expansion_closed; lra|].
  replace p2 with (p + (p2 - p)) by ring.
  destruct (eps_closed_cmp b p (p2 - p) k Hp ltac:(lra) Hk) as [Hgt [Hlt Heq]].
  unfold eps_unc_closed.
  replace (p + (p2 - p) - p) with (p2 - p) by ring.
  assert (Hk1 : 0 < / k) by (apply Rinv_0_lt_compat; lra).
  assert (Hp1 : 0 < / p) by (apply Rinv_0_lt_compat; lra).
  assert (Hkp : 0 < / k * / p) by (apply Rmult_lt_0_compat; lra).
  unfold Rdiv.
  split; [|split]; intros Hx; split.
  - apply Hgt; lra.
  - assert (0 < p2 - p) by lra. nra.
  - apply Hlt; lra.
  - assert (p2 - p < 0) by lra. nra.
  - apply Heq; lra.
  - replace (p2 - p) with 0 by lra. ring.
Qed.

Lemma compute_expansion_number_zero_division_witness :
  compute_expansion_number (Num 0.5) (Num 0) (Num 1e5) (Num 1.4) = Err ZeroDivisionError /\
  compute_expansion_number (Num 0.5) (Num 1e5) (Num 1e5) (Num 0) = Err ZeroDivisionError.
Proof. apply (compute_expansion_number_zero_division (Num 0.5) (Num 1e5) (Num 1.4) 1e5). lra. Defined.

Lemma compute_expansion_number_sign_witness :
  0 < 1e5 /\ 0 < 1.05e5 /\ 0 < 1.4 /\
  exists e u, compute_expansion_number (Num 0.5) (Num 1e5) (Num 1.05e5) (Num 1.4) = Ok (Num e, Num u) /\
    (1e5 < 1.05e5 -> 1 < e /\ 0 < u) /\ (1.05e5 < 1e5 -> e < 1 /\ u < 0) /\
    (1.05e5 = 1e5 -> e = 1 /\ u = 0).
Proof.
  split; [lra|]. split; [lra|]. split; [lra|].
  apply compute_expansion_number_sign; lra.
Defined.

(** ** The prelude of [compute_volume_flow_rate] *)

(** For physical inputs ([0 < d < D], [p1 > 2300 Pa], [p1 + dp > 0], [T > 0],
    [0 <= phi <= 1], [kappa > 0]) the prelude of [compute_volume_flow_rate]
    raises nothing; it takes [p2 = p1 + dp], so [eps] exceeds 1 for a positive
    [dp], is below 1 for a negative one and is 1 for [dp = 0]. *)
Theorem compute_prelude_eps_vs_dp (c : call) (x dd DD p t h k : R) :
  dp c = Num x -> d_orifice c = Num dd -> d_pipe c = Num DD -> p1 c = Num p ->
  T c = Num t -> phi c = Num h -> kappa c = Num k ->
  0 < dd < DD -> 2300 < p -> 0 < p + x -> 0 < t -> 0 <= h <= 1 -> 0 < k ->
  exists pr e, compute_prelude c = Ok pr /\ p2 pr = Num (p + x) /\ eps pr = Num e /\
    (0 < x -> 1 < e) /\ (x < 0 -> e < 1) /\ (x = 0 -> e = 1).
Proof.
  intros Hx Hd HD Hp Ht Hh Hk Hdd Hp0 Hpx Ht0 Hh0 Hk0.
  destruct (compute_prelude_closed c x dd DD p t h k Hx Hd HD Hp Ht Hh Hk
              Hdd Hp0 Hpx Ht0 Hh0 ltac:(lra)) as [r [m [_ [_ Hpr]]]].
  eexists; eexists. split; [exact Hpr|]. split; [reflexivity|]. split; [reflexivity|].
  apply eps_closed_cmp; lra.
Qed.

Lemma compute_prelude_eps_vs_dp_witness :
  exists pr e, compute_prelude call_seed0 = Ok pr /\ p2 pr = Num (200000 + 5000) /\
    eps pr = Num e /\
    (0 < 5000 -> 1 < e) /\ (5000 < 0 -> e < 1) /\ (5000 = 0 -> e = 1).
Proof.
  apply (compute_prelude_eps_vs_dp call_seed0 5000 50 100 200000 293.15 0 1.4);
    try reflexivity; lra.
Defined.

(** ** The flow formula [_vfr] *)

(** With the other arguments fixed ([rho > 0], [beta^4 < 1]), [_vfr] at
    [4 dp] is twice [_vfr] at [dp], for either sign of [dp]. *)
Theorem vfr_quadruple_dp_doubles (c0 b d e x rho : R) :
  0 < rho -> b * (b * (b * (b * 1))) < 1 ->
  exists q, _vfr (Num c0) (Num b) (Num d) (Num e) (Num x) (Num rho) = Ok (Num q) /\
    _vfr (Num c0) (Num b) (Num d) (Num e) (Num (4 * x)) (Num rho) = Ok (Num (2 * q)).
Proof.
  intros Hr Hb. eexists. split; [apply vfr_closed_form; assumption|].
  rewrite vfr_closed_form by assumption. f_equal. f_equal.
  assert (Hs : vfr_sign (4 * x) = vfr_sign x).
  { destruct (Rlt_dec x 0).
    - rewrite !vfr_sign_neg by lra. reflexivity.
    - rewrite !vfr_sign_nonneg by lra. reflexivity. }
  assert (Hg : vfr_gain b d (4 * x) rho = 2 * vfr_gain b d x rho).
  { unfold vfr_gain. rewrite Rabs_mult, (Rabs_pos_eq 4) by lra.
    assert (H0 : 0 <= 2 * Rabs x / rho)
      by (apply div_nonneg; [pose proof (Rabs_pos x); lra|lra]).
    replace (2 * (4 * Rabs x) / rho) with ((2 * 2) * (2 * Rabs x / rho)) by (field; lra).
    rewrite sqrt_mult_alt by lra. rewrite sqrt_square by lra.
    unfold Rdiv. ring. }
  rewrite Hs, Hg. ring.
Qed.

Lemma vfr_quadruple_dp_doubles_witness :
  exists q, _vfr (Num 0.6) (Num 0.5) (Num 0.05) (Num 1) (Num 1000) (Num 1.2) = Ok (Num q) /\
    _vfr (Num 0.6) (Num 0.5) (Num 0.05) (Num 1) (Num (4 * 1000)) (Num 1.2) = Ok (Num (2 * q)).
Proof. apply vfr_quadruple_dp_doubles; lra. Defined.

(** A zero density: [_vfr] divides [2 * dp] by [rho] as Python floats when
    [dp >= 0] and raises [ZeroDivisionError]; for [dp < 0] it divides
    [2 * np.abs(dp)] by [rho] with NumPy and returns without raising. *)
Theorem vfr_zero_density (c0 b d e : fl) (x : R) :
  (0 <= x -> _vfr c0 b d e (Num x) (Num 0) = Err ZeroDivisionError) /\
  (x < 0 -> exists v, _vfr c0 b d e (Num x) (Num 0) = Ok v).
Proof.
  split; intros Hx; unfold _vfr, flt, cmp, Rltb.
  - destruct (Rlt_dec x 0) as [|_]; [lra|]. unfold pdiv.
    destruct (Req_dec_T 0 0) as [_|]; [reflexivity|lra].
  - destruct (Rlt_dec x 0) as [_|]; [|lra]. eexists. reflexivity.
Qed.

(** ** Flow coefficient *)

Lemma flow_coefficient_C_zero_Re (b D : R) :
  0 < b < 1 -> 0 < D -> flow_coefficient_C (Num b) (Num D) (Num 0) = Ok NaN.
Proof.
  intros Hb HD. unfold flow_coefficient_C.
  pose proof (b4_lt1 b Hb).
  assert (HM : 0 < 2 * (25.4 / 1000 / D) / (1 - b)).
  { apply Rdiv_lt_0_compat; [|lra]. apply Rmult_lt_0_compat; [lra|].
    apply Rdiv_lt_0_compat; lra. }
  unfold pdiv, ppow, npow. fl_unfold. decide_R.
Qed.

(** [compute_flow_coefficient] divides by [D] and by [1 - beta] as Python
    floats: [D = 0] raises [ZeroDivisionError], and so does [beta = 1] for a
    nonzero [D]. *)
Theorem compute_flow_coefficient_zero_division (beta Re : fl) (D : R) :
  D <> 0 ->
  compute_flow_coefficient beta (Num 0) Re = Err ZeroDivisionError /\
  compute_flow_coefficient (Num 1) (Num D) Re = Err ZeroDivisionError.
Proof.
  intros HD. unfold compute_flow_coefficient, flow_coefficient_C, pdiv. split.
  - destruct (Req_dec_T 0 0) as [_|]; [reflexivity|lra].
  - destruct (Req_dec_T D 0) as [|_]; [lra|]. cbn [bind]. fl_unfold.
    destruct (Req_dec_T (1 - 1) 0) as [_|]; [reflexivity|lra].
Qed.

Lemma compute_flow_coefficient_zero_division_witness :
  compute_flow_coefficient (Num 0.5) (Num 0) (Num 1e5) = Err ZeroDivisionError /\
  compute_flow_coefficient (Num 1) (Num 0.1) (Num 1e5) = Err ZeroDivisionError.
Proof. apply (compute_flow_coefficient_zero_division (Num 0.5) (Num 1e5) 0.1). lra. Defined.

(** ** Pressure loss *)

(** For [beta^4 < 1] and a non-negative [C], the pressure loss is a fixed
    fraction of [dp], between 0 and 1: it has the sign of [dp] and is at most
    [|dp|] in size. *)
Theorem pressure_loss_fraction (b c : R) :
  b ^ 4 < 1 -> 0 <= c ->
  exists f, 0 <= f <= 1 /\ forall x, pressure_loss (Num b) (Num c) (Num x) = Num (f * x).
Proof.
  intros Hb Hc. unfold pressure_loss, fsqrt, fpown, fsub, fmul, fadd, fdiv, lift1, lift2.
  assert (Hb2 : 0 <= b ^ 2) by (apply pow2_ge_0).
  assert (Hb4 : b ^ 4 = b ^ 2 * b ^ 2) by ring.
  assert (Hc2 : c ^ 2 = c * c) by ring.
  assert (Harg : 0 < 1 - b ^ 4 * (1 - c ^ 2)) by nra.
  destruct (Rlt_dec (1 - b ^ 4 * (1 - c ^ 2)) 0) as [|_]; [lra|].
  set (s := sqrt (1 - b ^ 4 * (1 - c ^ 2))).
  assert (Hs : 0 < s) by (apply sqrt_lt_R0; exact Harg).
  assert (Hcb : 0 <= c * b ^ 2) by (apply Rmult_le_pos; assumption).
  destruct (Req_dec_T (s + c * b ^ 2) 0) as [|_]; [lra|].
  (* [s >= c b^2] because [s^2 - (c b^2)^2 = 1 - b^4 >= 0]. *)
  assert (Hss : s * s = 1 - b ^ 4 * (1 - c ^ 2)) by (apply sqrt_sqrt; lra).
  assert (Hge : c * b ^ 2 <= s).
  { destruct (Rle_dec (c * b ^ 2) s) as [|Hn]; [assumption|].
    exfalso. assert (s * s < (c * b ^ 2) * (c * b ^ 2)) by nra. nra. }
  exists ((s - c * b ^ 2) / (s + c * b ^ 2)). split.
  - split.
    + apply div_nonneg; lra.
    + apply Rmult_le_reg_r with (s + c * b ^ 2); [lra|].
      unfold Rdiv. rewrite Rmult_assoc, Rinv_l by lra. lra.
  - intros x. reflexivity.
Qed.

Lemma pressure_loss_fraction_witness :
  exists f, 0 <= f <= 1 /\ forall x, pressure_loss (Num 0.5) (Num 0.6) (Num x) = Num (f * x).
Proof. apply pressure_loss_fraction; lra. Defined.

(** ** The state left by the loop *)

Section LoopState.

Variable body : fl -> res iter.

Hypothesis body_pass : forall cg it, body cg = Ok it -> pass_C_guess it = cg.

(** The [C_guess] and [residuum] left by the loop are those computed from
    the pass it keeps. *)
Lemma loop_last_state (fuel : nat) (Cg r : fl) (j : nat) (last : option iter)
  (o : loop_out) :
  (forall it0, last = Some it0 -> Cg = C it0 /\ r = fabs (C it0 -! pass_C_guess it0)) ->
  loop body fuel Cg r j last = Ok o ->
  forall it, lo_last o = Some it ->
  lo_C_guess o = C it /\ lo_residuum o = fabs (C it -! pass_C_guess it).
Proof.
  revert Cg r j last.
  induction fuel as [|fuel IH]; intros Cg r j last Hinv Hloop it Hit.
  - cbn [loop] in Hloop. injection Hloop as <-. apply Hinv. exact Hit.
  - rewrite loop_step in Hloop.
    destruct (fgt (mean_scalar r) eps_res).
    + destruct (body Cg) as [it'|e] eqn:Hb; cbn [bind] in Hloop; [|discriminate].
      pose proof (body_pass _ _ Hb) as Hp.
      destruct (Nat.ltb 999 (S j)).
      * injection Hloop as <-. cbn [lo_last] in Hit. injection Hit as <-.
        cbn [lo_C_guess lo_residuum]. rewrite Hp. split; reflexivity.
      * eapply IH; [|exact Hloop|exact Hit].
        intros it0 H0. injection H0 as <-. rewrite Hp. split; reflexivity.
    + injection Hloop as <-. apply Hinv. exact Hit.
Qed.

End LoopState.

(** When the loop of [compute_volume_flow_rate] has run, the [C_guess] it
    leaves is the [C] of the last pass and its [residuum] is [|C - C_guess]]
    of that pass; unless the iteration cap was hit, that difference is not
    above [1e-4] (it is at most [1e-4] or NaN). *)
Theorem loop_exit_state (c : call) (pr : prelude) (lo : loop_out) (it : iter) :
  cvfr_trace c = Ok (pr, lo) -> lo_last lo = Some it ->
  lo_C_guess lo = C it /\ lo_residuum lo = fabs (C it -! pass_C_guess it) /\
  (lo_capped lo = false -> fgt (fabs (C it -! pass_C_guess it)) eps_res = false).
Proof.
  intros H Hit. unfold cvfr_trace in H.
  destruct (compute_prelude c) as [pr'|e]; cbn [bind] in H; [|discriminate].
  destruct (run_loop (vfr_body c pr') (C_guess c) (residuum c)) as [lo'|e] eqn:Hl;
    cbn [bind] in H; [|discriminate].
  injection H as <- <-.
  destruct (loop_last_state (vfr_body c pr') (vfr_body_pass c pr') 1000 (C_guess c)
              (residuum c) 0 None lo' ltac:(discriminate) Hl it Hit) as [H1 H2].
  split; [exact H1|]. split; [exact H2|].
  intros Hcap. rewrite <- H2.
  destruct (loop_fuel_enough (vfr_body c pr') 1000 (C_guess c) (residuum c) 0 None lo'
              eq_refl ltac:(lia) Hl) as (_ & Hres & _).
  destruct (fgt (lo_residuum lo') eps_res); [|reflexivity].
  destruct (Hres eq_refl) as [_ Hc]. congruence.
Qed.

Lemma loop_exit_state_witness :
  exists pr lo it, cvfr_trace (call095 99000 (-0.62)) = Ok (pr, lo) /\ lo_last lo = Some it /\
    lo_C_guess lo = C it /\ lo_residuum lo = fabs (C it -! pass_C_guess it) /\
    (lo_capped lo = false -> fgt (fabs (C it -! pass_C_guess it)) eps_res = false).
Proof.
  destruct call095_neg_guess_trace as (r & m & it & _ & _ & Htr & _ & _).
  exists (pr095 99000 r m), (mkLoopOut NaN NaN 1 (Some it) false), it.
  split; [exact Htr|]. split; [reflexivity|].
  exact (loop_exit_state _ _ _ it Htr eq_refl).
Defined.

(** ** A zero pressure difference *)

Lemma vfr_gain_zero (b d rho : R) : vfr_gain b d 0 rho = 0.
Proof.
  unfold vfr_gain. rewrite Rabs_R0.
  replace (2 * 0 / rho) with 0 by (unfold Rdiv; ring). rewrite sqrt_0.
  unfold Rdiv. ring.
Qed.

(** For [dp = 0], physical inputs and a residual seed above [1e-4],
    [compute_volume_flow_rate] makes one pass and returns a flow rate of 0
    with bounds 0. The Reynolds number of that pass is 0, so [C] is NaN, the
    loop stops on the NaN residual, and the pressure loss is NaN. *)
Theorem zero_dp_zero_flow_nan_loss (c : call) (dd DD p t h k cg r : R) :
  dp c = Num 0 -> d_orifice c = Num dd -> d_pipe c = Num DD -> p1 c = Num p ->
  T c = Num t -> phi c = Num h -> kappa c = Num k -> C_guess c = Num cg ->
  residuum c = Num r ->
  0 < dd < DD -> 2300 < p -> 0 < t -> 0 <= h <= 1 -> k <> 0 -> / 10 ^ 4 < r ->
  compute_volume_flow_rate c = Ok (Num 0, Num 0, Num 0, NaN).
Proof.
  intros Hx Hd HD Hp Ht Hh Hk Hcg Hr Hdd Hp0 Ht0 Hh0 Hk0 Hr0.
  destruct (compute_prelude_closed c 0 dd DD p t h k Hx Hd HD Hp Ht Hh Hk
              Hdd Hp0 ltac:(lra) Ht0 Hh0 Hk0) as [rho [m [Hrho [Hm Hpr]]]].
  match type of Hpr with _ = Ok ?P => set (pr := P) in Hpr end.
  assert (Hb : 0 < dd / DD < 1).
  { split; [apply Rdiv_lt_0_compat; lra|].
    apply Rmult_lt_reg_r with DD; [lra|]. unfold Rdiv.
    rewrite Rmult_assoc, Rinv_l by lra. lra. }
  pose proof (unit_scale_pos (length_unit c) DD ltac:(lra)) as HD'.
  pose proof (unit_scale_pos (length_unit c) dd ltac:(lra)) as Hd'.
  assert (Ha : unit_scale (length_unit c) dd ^ 2 / 4 * PI <> 0).
  { pose proof PI_RGT_0. assert (0 < unit_scale (length_unit c) dd ^ 2) by (apply pow_lt; lra).
    assert (0 < unit_scale (length_unit c) dd ^ 2 / 4 * PI)
      by (apply Rmult_lt_0_compat; [apply Rdiv_lt_0_compat|]; lra). lra. }
  assert (Hn : m / rho <> 0) by (assert (0 < m / rho) by (apply Rdiv_lt_0_compat; lra); lra).
  destruct (vfr_body_closed c pr cg (dd / DD) (unit_scale (length_unit c) dd)
              (unit_scale (length_unit c) DD) (unit_scale (length_unit c) dd ^ 2 / 4 * PI)
              rho (m / rho) (eps_closed (dd / DD) p (p + 0) k) (eps_unc_closed p (p + 0) k) 0
              eq_refl eq_refl eq_refl eq_refl eq_refl eq_refl eq_refl eq_refl Hx
              Hb HD' Ha Hn Hrho) as [C0 [e [HC [_ Hbody]]]].
  rewrite !vfr_gain_zero in HC, Hbody.
  assert (HRe0 : forall s y a D n, s * y * 0 / a * D / n = 0) by (intros; unfold Rdiv; ring).
  rewrite !HRe0 in HC, Hbody.
  rewrite (flow_coefficient_C_zero_Re (dd / DD) (unit_scale (length_unit c) DD) Hb HD') in HC.
  injection HC as <-.
  unfold compute_volume_flow_rate, cvfr_trace. rewrite Hpr. cbn [bind].
  rewrite Hcg, Hr. unfold run_loop. rewrite loop_step.
  assert (Hgt : fgt (mean_scalar (Num r)) eps_res = true).
  { unfold fgt, cmp, mean_scalar, eps_res, Rltb. destruct (Rlt_dec (/ 10 ^ 4) r); [reflexivity|lra]. }
  rewrite Hgt, Hbody. cbn [bind]. change (Nat.ltb 999 1) with false. cbv iota.
  rewrite loop_step. cbn [C fabs fsub lift1 lift2 fgt cmp mean_scalar].
  cbn [bind fst snd]. unfold finish. cbn [lo_last vfr_value vfr_value_min vfr_value_max C dp pr_beta pr].
  rewrite Hx. unfold pressure_loss. fl_unfold. cbn.
  f_equal. repeat f_equal; ring.
Qed.

Lemma zero_dp_zero_flow_nan_loss_witness :
  compute_volume_flow_rate (call095 0 0.62) = Ok (Num 0, Num 0, Num 0, NaN).
Proof.
  apply (zero_dp_zero_flow_nan_loss (call095 0 0.62) 0.95 1 100000 293.15 0 1.4 0.62 0.1);
    try reflexivity; lra.
Defined.

(** ** Uncertainty of C outside the table *)

(** For [beta] outside [[0.1, 0.77]] and [D >= 0.7112 m], the uncertainty
    returned by [compute_flow_coefficient] is 0: no warning and no error
    tells that [beta] is outside the range of the table. *)
Theorem flow_coefficient_uncertainty_outside_table (b D Re : R) :
  b < 0.1 \/ 0.77 < b -> 0.7112 <= D ->
  flow_coefficient_uncertainty (Num b) (Num D) (Num Re) = Num 0.
Proof.
  intros Hb HD. unfold flow_coefficient_uncertainty. fl_unfold.
  destruct Hb; decide_R.
Qed.

Lemma flow_coefficient_uncertainty_outside_table_witness :
  flow_coefficient_uncertainty (Num 0.05) (Num 1) (Num 100000) = Num 0.
Proof. apply flow_coefficient_uncertainty_outside_table; lra. Defined.

(** ** Temperatures in degrees Celsius *)

(** A scalar temperature [t] with [-173.15 <= t < 100] is read as degrees
    Celsius: [compute_volume_flow_rate] gives the same result, exceptions
    included, as for the temperature [t + 273.15] in kelvin. *)
Theorem volume_flow_rate_celsius_equals_kelvin (x d D p h k cg r : fl) (u : string) (t : R) :
  -173.15 <= t < 100 ->
  compute_volume_flow_rate (mkCall x d D u p (Num t) h k cg r) =
  compute_volume_flow_rate (mkCall x d D u p (Num (t + 273.15)) h k cg r).
Proof.
  intros Ht.
  assert (H1 : normalize_T_float (Num t) = Num (t + 273.15)).
  { unfold normalize_T_float, Cel2Kel, T0_Kelvin. fl_unfold.
    destruct (Rlt_dec t 100); [reflexivity|lra]. }
  assert (H2 : normalize_T_float (Num (t + 273.15)) = Num (t + 273.15)).
  { unfold normalize_T_float. fl_unfold.
    destruct (Rlt_dec (t + 273.15) 100); [lra|reflexivity]. }
  assert (Hpr : compute_prelude (mkCall x d D u p (Num t) h k cg r)
              = compute_prelude (mkCall x d D u p (Num (t + 273.15)) h k cg r)).
  { unfold compute_prelude. cbn [d_orifice d_pipe length_unit p1 T phi kappa dp].
    rewrite H1, H2. reflexivity. }
  unfold compute_volume_flow_rate, cvfr_trace, vfr_body, finish.
  cbn [dp C_guess residuum]. rewrite Hpr. reflexivity.
Qed.

Lemma volume_flow_rate_celsius_equals_kelvin_witness :
  compute_volume_flow_rate (mkCall (Num 5000) (Num 50) (Num 100) "mm" (Num 200000) (Num 20)
                              (Num 0) (Num 1.4) (Num 0.62) (Num 0.1)) =
  compute_volume_flow_rate (mkCall (Num 5000) (Num 50) (Num 100) "mm" (Num 200000)
                              (Num (20 + 273.15)) (Num 0) (Num 1.4) (Num 0.62) (Num 0.1)).
Proof. apply volume_flow_rate_celsius_equals_kelvin. lra. Defined.
